(** * AI-Gencontent: dashboard glue code, embedded and verified

    A shallow embedding of the TypeScript sources of the merchant dashboard:
    the paginated preview tables, the server-sent-event log consumers, the
    backend gateway ([uploadCSV], [pushToShopify]), the n8n webhook proxy and
    the route actions.

    Conventions.
    - A JavaScript string is the list of its UTF-16 code units ([jsstring]).
    - Array lengths and page numbers are integers ([Z]); the float division
      inside [Math.ceil(n / d)] is exact enough for array lengths and the
      constant page sizes used here, so it is written as integer ceiling.
    - A promise that rejects, or a statement that throws, is the [Throw]
      branch of [completion]. *)

From Stdlib Require Import ZArith NArith Lia List Bool Ascii String DecimalString.
From stdpp Require Import base option list strings gmap.

Set Warnings "-register-all".
Local Open Scope Z_scope.

(* ===================================================================== *)
(** ** Platform primitives used by the pagination code *)
(* ===================================================================== *)

Module Js.

(** [Math.ceil(n / d)] for integers [n] and a positive integer [d]. *)
Definition ceil_div (n d : Z) : Z := - ((- n) / d).

(** [a || b] on numbers: [0] is the only falsy integer. *)
Definition or_num (a b : Z) : Z := if a =? 0 then b else a.

(** Relative index of [Array.prototype.slice]: a negative argument counts
    from the end, everything is clamped to [0, len]. *)
Definition rel_index (len k : Z) : Z :=
  if k <? 0 then Z.max (len + k) 0 else Z.min k len.

(** [arr.slice(start, end)]. *)
Definition slice {A : Type} (arr : list A) (start end_ : Z) : list A :=
  let len := Z.of_nat (length arr) in
  let k := rel_index len start in
  let final := rel_index len end_ in
  take (Z.to_nat (final - k)) (drop (Z.to_nat k) arr).

End Js.

(* ===================================================================== *)
(** ** Paginated tables *)
(* ===================================================================== *)

(** The three preview tables compute their window the same way and differ
    only in the constant [itemsPerPage]; the common computation is written
    once, over the page size. *)
Module Paging.
Section WithPageSize.
Context {A : Type}.
Variable itemsPerPage : Z.

(** [const totalPages = Math.ceil(products.length / itemsPerPage)] *)
Definition totalPages (products : list A) : Z :=
  Js.ceil_div (Z.of_nat (length products)) itemsPerPage.

(** [const startIndex = (currentPage - 1) * itemsPerPage] *)
Definition startIndex (currentPage : Z) : Z :=
  (currentPage - 1) * itemsPerPage.

(** [products.slice(startIndex, startIndex + itemsPerPage)] *)
Definition currentProducts (products : list A) (currentPage : Z) : list A :=
  Js.slice products (startIndex currentPage)
           (startIndex currentPage + itemsPerPage).

(** The row keys of the rendered window: [startIndex + idx] for each
    [idx] of [currentProducts.map((row, idx) => ...)]. *)
Definition rowKeys (products : list A) (currentPage : Z) : list Z :=
  imap (fun idx _ => startIndex currentPage + Z.of_nat idx)
       (currentProducts products currentPage).

(** The page count a pager shows at least as [1]. *)
Definition pageCount (products : list A) : Z :=
  Z.max 1 (totalPages products).
End WithPageSize.
End Paging.

(** A rendered pager: the label [Page x of y] and the two controls. *)
Record Pager := mkPager {
  labelPage : Z;
  labelOf : Z;
  prevDisabled : bool;
  nextDisabled : bool
}.

(** A click on a control runs its handler unless the control is disabled. *)
Definition click (disabled : bool) (handler : Z -> Z) (page : Z) : Z :=
  if disabled then page else handler page.

(** *** [CSVPreviewTable] (admin dashboard component) *)
Module CSVPreviewTable.
Section Rows.
Context {Row : Type}.

Definition itemsPerPage : Z := 10.

Definition totalPages (products : list Row) : Z :=
  Paging.totalPages itemsPerPage products.
Definition startIndex (currentPage : Z) : Z :=
  Paging.startIndex itemsPerPage currentPage.
Definition currentProducts (products : list Row) (currentPage : Z) : list Row :=
  Paging.currentProducts itemsPerPage products currentPage.

(** [setCurrentPage(prev => Math.max(1, prev - 1))] *)
Definition handlePrev (prev : Z) : Z := Z.max 1 (prev - 1).
(** [setCurrentPage(prev => Math.min(totalPages, prev + 1))] *)
Definition handleNext (products : list Row) (prev : Z) : Z :=
  Z.min (totalPages products) (prev + 1).

Record View := mkView {
  rows : list (Z * Row);          (* the "#" cell and the record *)
  pager : Pager
}.

(** The component: [null] for a missing or empty row list, otherwise the
    table window and the pager. *)
Definition render (products : list Row) (currentPage : Z) : option View :=
  if (length products =? 0)%nat then None
  else
    Some {| rows := imap (fun idx row =>
                            (startIndex currentPage + Z.of_nat idx + 1, row))
                         (currentProducts products currentPage);
            pager := {| labelPage := currentPage;
                        labelOf := Js.or_num (totalPages products) 1;
                        prevDisabled := currentPage =? 1;
                        nextDisabled := (currentPage =? totalPages products)
                                        || (totalPages products =? 0) |} |}.

Definition clickPrev (products : list Row) (currentPage : Z) : Z :=
  click (currentPage =? 1) handlePrev currentPage.
Definition clickNext (products : list Row) (currentPage : Z) : Z :=
  click ((currentPage =? totalPages products) || (totalPages products =? 0))
        (handleNext products) currentPage.
End Rows.
End CSVPreviewTable.

(** *** The Polaris tables of [UploadCSVPublic] and [Index] *)
Module PolarisTable.
Section Rows.
Context {Row : Type}.
Variable itemsPerPage : Z.

Definition totalPages (allProducts : list Row) : Z :=
  Paging.totalPages itemsPerPage allProducts.
Definition startIndex (currentPage : Z) : Z :=
  Paging.startIndex itemsPerPage currentPage.
Definition currentData (allProducts : list Row) (currentPage : Z) : list Row :=
  Paging.currentProducts itemsPerPage allProducts currentPage.

(** [<Pagination hasPrevious={currentPage > 1} hasNext={currentPage < totalPages}
     label={`Page ${currentPage} of ${totalPages}`} />] *)
Definition pager (allProducts : list Row) (currentPage : Z) : Pager :=
  {| labelPage := currentPage;
     labelOf := totalPages allProducts;
     prevDisabled := negb (1 <? currentPage);
     nextDisabled := negb (currentPage <? totalPages allProducts) |}.

(** [onPrevious={() => setCurrentPage(p => p - 1)}] *)
Definition onPrevious (p : Z) : Z := p - 1.
(** [onNext={() => setCurrentPage(p => p + 1)}] *)
Definition onNext (p : Z) : Z := p + 1.

Definition clickPrev (allProducts : list Row) (currentPage : Z) : Z :=
  click (prevDisabled (pager allProducts currentPage)) onPrevious currentPage.
Definition clickNext (allProducts : list Row) (currentPage : Z) : Z :=
  click (nextDisabled (pager allProducts currentPage)) onNext currentPage.
End Rows.
End PolarisTable.

Module UploadCSVPublicTable.
Definition itemsPerPage : Z := 10.
End UploadCSVPublicTable.

Module IndexTable.
Definition itemsPerPage : Z := 8.
End IndexTable.

(** *** [PriceLogsPage]: server-side paging over [total] records *)
Module PriceLogsPage.
Definition limit : Z := 20.

(** [const totalPages = Math.ceil(total / limit)] *)
Definition totalPages (total : Z) : Z := Js.ceil_div total limit.

(** [const offset = (page - 1) * limit], the window asked of the server. *)
Definition offset (page : Z) : Z := (page - 1) * limit.

Definition pager (total page : Z) : Pager :=
  {| labelPage := page;
     labelOf := Js.or_num (totalPages total) 1;
     prevDisabled := page =? 1;
     nextDisabled := (page =? totalPages total) || (totalPages total =? 0) |}.

(** [setPage(p => Math.max(1, p - 1))] *)
Definition prevPage (p : Z) : Z := Z.max 1 (p - 1).
(** [setPage(p => Math.min(totalPages, p + 1))] *)
Definition nextPage (total p : Z) : Z := Z.min (totalPages total) (p + 1).

Definition clickPrev (total page : Z) : Z :=
  click (prevDisabled (pager total page)) prevPage page.
Definition clickNext (total page : Z) : Z :=
  click (nextDisabled (pager total page)) (nextPage total) page.
End PriceLogsPage.

(* ===================================================================== *)
(** ** JavaScript strings *)
(* ===================================================================== *)

(** A string is the sequence of its UTF-16 code units. *)
Abbreviation jsstring := (list N).

(** An ASCII literal of the source as a [jsstring]. *)
Definition js (s : string) : jsstring :=
  map N_of_ascii (list_ascii_of_string s).

Module JsString.

Fixpoint eqb (a b : jsstring) : bool :=
  match a, b with
  | [], [] => true
  | x :: a', y :: b' => (x =? y)%N && eqb a' b'
  | _, _ => false
  end.

(** [s.startsWith(p)] *)
Fixpoint startsWith (s p : jsstring) : bool :=
  match p, s with
  | [], _ => true
  | y :: p', x :: s' => (x =? y)%N && startsWith s' p'
  | _ :: _, [] => false
  end.

(** [s.endsWith(p)] *)
Definition endsWith (s p : jsstring) : bool :=
  startsWith (rev s) (rev p).

(** [s.includes(p)]: [p] occurs at some position of [s]. *)
Fixpoint includes (s p : jsstring) : bool :=
  startsWith s p ||
  match s with
  | [] => false
  | _ :: s' => includes s' p
  end.

(** [s.slice(start, end)] follows the relative-index rule of arrays. *)
Definition slice (s : jsstring) (start end_ : Z) : jsstring :=
  Js.slice s start end_.

(** WhiteSpace and LineTerminator code units, as removed by [trim]. *)
Definition isWhiteSpace (c : N) : bool :=
  ((c =? 9) || (c =? 10) || (c =? 11) || (c =? 12) || (c =? 13) || (c =? 32)
   || (c =? 160) || (c =? 5760) || ((8192 <=? c) && (c <=? 8202))
   || (c =? 8232) || (c =? 8233) || (c =? 8239) || (c =? 8287)
   || (c =? 12288) || (c =? 65279))%N.

Fixpoint trimStart (s : jsstring) : jsstring :=
  match s with
  | c :: s' => if isWhiteSpace c then trimStart s' else s
  | [] => []
  end.

(** [s.trim()] *)
Definition trim (s : jsstring) : jsstring :=
  rev (trimStart (rev (trimStart s))).

(** Decimal text of an integer, as [`${n}`] prints it. *)
Definition ofZ (n : Z) : jsstring :=
  js (NilZero.string_of_int (Z.to_int n)).

End JsString.

(* ===================================================================== *)
(** ** JSON values and [JSON.parse] *)
(* ===================================================================== *)

(** A JSON number as written: [(-1)^neg * mantissa * 10^exp10]. *)
Record jnumber := mkNumber {
  num_neg : bool;
  num_mantissa : N;
  num_exp10 : Z
}.

Inductive json : Type :=
| JNull
| JBool (b : bool)
| JNumber (n : jnumber)
| JString (s : jsstring)
| JArray (items : list json)
| JObject (members : list (jsstring * json)).

(** A JavaScript value reached from parsed JSON: [None] is [undefined]. *)
Definition jsval : Type := option json.

Module Json.

Inductive token :=
| TLBrace | TRBrace | TLBracket | TRBracket | TColon | TComma
| TString (s : jsstring) | TNumber (n : jnumber)
| TTrue | TFalse | TNull.

(** Progress inside a number literal. *)
Inductive numstate :=
| NMinus      (* after '-'            : a digit must follow  *)
| NZero       (* after a leading '0'  : complete              *)
| NInt        (* inside the integer   : complete              *)
| NDot        (* after '.'            : a digit must follow  *)
| NFrac       (* inside the fraction  : complete              *)
| NE          (* after 'e' or 'E'     : sign or digit         *)
| NESign      (* after the sign       : a digit must follow  *)
| NExp.       (* inside the exponent  : complete              *)

Record numacc := mkAcc {
  a_neg : bool; a_mant : N; a_frac : Z; a_eneg : bool; a_exp : N
}.

Definition acc_number (a : numacc) : jnumber :=
  {| num_neg := a_neg a;
     num_mantissa := a_mant a;
     num_exp10 := (if a_eneg a then - Z.of_N (a_exp a) else Z.of_N (a_exp a))
                  - a_frac a |}.

Inductive lexstate :=
| LStart
| LStr (acc : jsstring)                       (* reversed characters *)
| LEsc (acc : jsstring)
| LUni (acc : jsstring) (hex : N) (remaining : nat)
| LLit (rest : jsstring) (t : token)
| LNum (st : numstate) (a : numacc).

Definition isDigit (c : N) : bool := ((48 <=? c) && (c <=? 57))%N.
Definition digit (c : N) : N := (c - 48)%N.

Definition hexDigit (c : N) : option N :=
  if isDigit c then Some (c - 48)%N
  else if ((97 <=? c) && (c <=? 102))%N then Some (c - 87)%N
  else if ((65 <=? c) && (c <=? 70))%N then Some (c - 55)%N
  else None.

(** JSON whitespace: tab, line feed, carriage return, space. *)
Definition isWs (c : N) : bool :=
  ((c =? 9) || (c =? 10) || (c =? 13) || (c =? 32))%N.

Definition acc0 (neg : bool) (m : N) : numacc :=
  {| a_neg := neg; a_mant := m; a_frac := 0; a_eneg := false; a_exp := 0 |}.

(** A character met between two tokens: the tokens it completes and the
    state it leads to. *)
Definition lexStart (c : N) : option (list token * lexstate) :=
  if isWs c then Some ([], LStart)
  else if (c =? 123)%N then Some ([TLBrace], LStart)
  else if (c =? 125)%N then Some ([TRBrace], LStart)
  else if (c =? 91)%N then Some ([TLBracket], LStart)
  else if (c =? 93)%N then Some ([TRBracket], LStart)
  else if (c =? 58)%N then Some ([TColon], LStart)
  else if (c =? 44)%N then Some ([TComma], LStart)
  else if (c =? 34)%N then Some ([], LStr [])
  else if (c =? 45)%N then Some ([], LNum NMinus (acc0 true 0))
  else if (c =? 48)%N then Some ([], LNum NZero (acc0 false 0))
  else if isDigit c then Some ([], LNum NInt (acc0 false (digit c)))
  else if (c =? 116)%N then Some ([], LLit (js "rue") TTrue)
  else if (c =? 102)%N then Some ([], LLit (js "alse") TFalse)
  else if (c =? 110)%N then Some ([], LLit (js "ull") TNull)
  else None.

Definition pushDigit (a : numacc) (c : N) : numacc :=
  {| a_neg := a_neg a; a_mant := (a_mant a * 10 + digit c)%N;
     a_frac := a_frac a; a_eneg := a_eneg a; a_exp := a_exp a |}.
Definition pushFrac (a : numacc) (c : N) : numacc :=
  {| a_neg := a_neg a; a_mant := (a_mant a * 10 + digit c)%N;
     a_frac := a_frac a + 1; a_eneg := a_eneg a; a_exp := a_exp a |}.
Definition pushExp (a : numacc) (c : N) : numacc :=
  {| a_neg := a_neg a; a_mant := a_mant a;
     a_frac := a_frac a; a_eneg := a_eneg a; a_exp := (a_exp a * 10 + digit c)%N |}.
Definition setENeg (a : numacc) : numacc :=
  {| a_neg := a_neg a; a_mant := a_mant a;
     a_frac := a_frac a; a_eneg := true; a_exp := a_exp a |}.

Definition isE (c : N) : bool := ((c =? 101) || (c =? 69))%N.

(** A number literal ends at the first character that cannot extend it. *)
Definition endNumber (a : numacc) (c : N) : option (list token * lexstate) :=
  match lexStart c with
  | Some (ts, st) => Some (TNumber (acc_number a) :: ts, st)
  | None => None
  end.

Definition lexNum (st : numstate) (a : numacc) (c : N)
  : option (list token * lexstate) :=
  match st with
  | NMinus =>
      if (c =? 48)%N then Some ([], LNum NZero a)
      else if isDigit c then Some ([], LNum NInt (pushDigit a c))
      else None
  | NZero =>
      if (c =? 46)%N then Some ([], LNum NDot a)
      else if isE c then Some ([], LNum NE a)
      else endNumber a c
  | NInt =>
      if isDigit c then Some ([], LNum NInt (pushDigit a c))
      else if (c =? 46)%N then Some ([], LNum NDot a)
      else if isE c then Some ([], LNum NE a)
      else endNumber a c
  | NDot =>
      if isDigit c then Some ([], LNum NFrac (pushFrac a c)) else None
  | NFrac =>
      if isDigit c then Some ([], LNum NFrac (pushFrac a c))
      else if isE c then Some ([], LNum NE a)
      else endNumber a c
  | NE =>
      if (c =? 43)%N then Some ([], LNum NESign a)
      else if (c =? 45)%N then Some ([], LNum NESign (setENeg a))
      else if isDigit c then Some ([], LNum NExp (pushExp a c))
      else None
  | NESign =>
      if isDigit c then Some ([], LNum NExp (pushExp a c)) else None
  | NExp =>
      if isDigit c then Some ([], LNum NExp (pushExp a c))
      else endNumber a c
  end.

(** The character an escape [\c] stands for. *)
Definition escapeChar (c : N) : option N :=
  if (c =? 34)%N then Some 34%N            (* quotation mark *)
  else if (c =? 92)%N then Some 92%N       (* reverse solidus *)
  else if (c =? 47)%N then Some 47%N       (* solidus *)
  else if (c =? 98)%N then Some 8%N        (* b: backspace *)
  else if (c =? 102)%N then Some 12%N      (* f: form feed *)
  else if (c =? 110)%N then Some 10%N      (* n: line feed *)
  else if (c =? 114)%N then Some 13%N      (* r: carriage return *)
  else if (c =? 116)%N then Some 9%N       (* t: tab *)
  else None.

(** One character of input. *)
Definition lexStep (st : lexstate) (c : N) : option (list token * lexstate) :=
  match st with
  | LStart => lexStart c
  | LStr acc =>
      if (c =? 34)%N then Some ([TString (rev acc)], LStart)
      else if (c =? 92)%N then Some ([], LEsc acc)
      else if (c <? 32)%N then None
      else Some ([], LStr (c :: acc))
  | LEsc acc =>
      if (c =? 117)%N then Some ([], LUni acc 0 4)
      else match escapeChar c with
           | Some x => Some ([], LStr (x :: acc))
           | None => None
           end
  | LUni acc hex remaining =>
      match hexDigit c with
      | Some d =>
          let hex' := (hex * 16 + d)%N in
          match remaining with
          | 1%nat => Some ([], LStr (hex' :: acc))
          | _ => Some ([], LUni acc hex' (pred remaining))
          end
      | None => None
      end
  | LLit rest t =>
      match rest with
      | e :: rest' =>
          if (c =? e)%N
          then match rest' with
               | [] => Some ([t], LStart)
               | _ => Some ([], LLit rest' t)
               end
          else None
      | [] => None
      end
  | LNum ns a => lexNum ns a c
  end.

(** What is left pending when the input ends. *)
Definition lexEnd (st : lexstate) : option (list token) :=
  match st with
  | LStart => Some []
  | LNum NZero a | LNum NInt a | LNum NFrac a | LNum NExp a =>
      Some [TNumber (acc_number a)]
  | _ => None
  end.

Fixpoint lex (st : lexstate) (s : jsstring) : option (list token) :=
  match s with
  | [] => lexEnd st
  | c :: s' =>
      match lexStep st c with
      | Some (ts, st') =>
          match lex st' s' with
          | Some rest => Some (ts ++ rest)
          | None => None
          end
      | None => None
      end
  end.

Definition tokenize (s : jsstring) : option (list token) := lex LStart s.

(** An open container: an array with its items so far, or an object with
    its members so far and the key waiting for its value. *)
Inductive container :=
| CArr (items : list json)
| CObj (members : list (jsstring * json)) (key : option jsstring).

Inductive expect :=
| EValue            (* a value                                *)
| EValueOrClose     (* just after '[': a value or ']'         *)
| EKeyOrClose       (* just after '{': a key or '}'           *)
| EKey              (* after ',' in an object: a key          *)
| EColon            (* after a key                            *)
| ECommaOrClose     (* after a value inside a container       *)
| EDone (v : json). (* the text is complete                   *)

Definition pstate : Type := list container * expect.

(** A completed value goes to the enclosing container, or ends the text. *)
Definition deliver (v : json) (stack : list container) : option pstate :=
  match stack with
  | [] => Some ([], EDone v)
  | CArr items :: up => Some (CArr (v :: items) :: up, ECommaOrClose)
  | CObj members (Some k) :: up =>
      Some (CObj ((k, v) :: members) None :: up, ECommaOrClose)
  | CObj _ None :: _ => None
  end.

Definition startValue (t : token) (stack : list container) : option pstate :=
  match t with
  | TNull => deliver JNull stack
  | TTrue => deliver (JBool true) stack
  | TFalse => deliver (JBool false) stack
  | TNumber n => deliver (JNumber n) stack
  | TString s => deliver (JString s) stack
  | TLBracket => Some (CArr [] :: stack, EValueOrClose)
  | TLBrace => Some (CObj [] None :: stack, EKeyOrClose)
  | _ => None
  end.

Definition closeArray (stack : list container) : option pstate :=
  match stack with
  | CArr items :: up => deliver (JArray (rev items)) up
  | _ => None
  end.

Definition closeObject (stack : list container) : option pstate :=
  match stack with
  | CObj members None :: up => deliver (JObject (rev members)) up
  | _ => None
  end.

Definition takeKey (t : token) (stack : list container) : option pstate :=
  match t, stack with
  | TString k, CObj members None :: up => Some (CObj members (Some k) :: up, EColon)
  | _, _ => None
  end.

Definition parseStep (p : pstate) (t : token) : option pstate :=
  let '(stack, e) := p in
  match e with
  | EValue => startValue t stack
  | EValueOrClose =>
      match t with
      | TRBracket => closeArray stack
      | _ => startValue t stack
      end
  | EKeyOrClose =>
      match t with
      | TRBrace => closeObject stack
      | _ => takeKey t stack
      end
  | EKey => takeKey t stack
  | EColon =>
      match t with
      | TColon => Some (stack, EValue)
      | _ => None
      end
  | ECommaOrClose =>
      match t, stack with
      | TComma, CArr _ :: _ => Some (stack, EValue)
      | TComma, CObj _ _ :: _ => Some (stack, EKey)
      | TRBracket, _ => closeArray stack
      | TRBrace, _ => closeObject stack
      | _, _ => None
      end
  | EDone _ => None
  end.

Fixpoint parseTokens (p : pstate) (ts : list token) : option json :=
  match ts with
  | [] => match p with
          | ([], EDone v) => Some v
          | _ => None
          end
  | t :: ts' =>
      match parseStep p t with
      | Some p' => parseTokens p' ts'
      | None => None
      end
  end.

(** [JSON.parse(text)]: [None] stands for the [SyntaxError]. *)
Definition parse (text : jsstring) : option json :=
  match tokenize text with
  | Some ts => parseTokens ([], EValue) ts
  | None => None
  end.

End Json.

(* ===================================================================== *)
(** ** Exceptions, completions, and the values read out of parsed JSON *)
(* ===================================================================== *)

(** Why the engine raised a [TypeError]. *)
Inductive type_error :=
| ReadOfNullish (prop : string)    (* a property of [null] or [undefined] *)
| NotCallable (prop : string)      (* a call of something not a function  *)
| NoPrimitive.                     (* no usable [toString] / [valueOf]    *)

(** What a [throw] or a rejected promise carries. *)
Inductive exn :=
| JsError (message : jsstring)     (* [new Error(message)]                *)
| TypeError (why : type_error)     (* raised by the engine                *)
| SyntaxError (text : jsstring)    (* [JSON.parse] on a malformed text    *)
| FetchFailed (message : jsstring) (* the transport failed                *)
| ThrownResponse (status : Z).     (* a [Response] thrown by a helper     *)

Inductive completion (A : Type) : Type :=
| Normal (a : A)
| Throw (e : exn).
Arguments Normal {A} a.
Arguments Throw {A} e.

#[export] Instance completion_ret : MRet completion := fun A a => Normal a.
#[export] Instance completion_bind : MBind completion := fun A B f c =>
  match c with
  | Normal a => f a
  | Throw e => Throw e
  end.

Module JsValue.

(** [JSON.parse(text)] as a completion. *)
Definition JSON_parse (text : jsstring) : completion json :=
  match Json.parse text with
  | Some v => Normal v
  | None => Throw (SyntaxError text)
  end.

(** The own property [k] of a parsed object: the last member wins. *)
Fixpoint ownProperty (k : jsstring) (members : list (jsstring * json)) : jsval :=
  match members with
  | [] => None
  | (k', v) :: rest =>
      match ownProperty k rest with
      | Some later => Some later
      | None => if JsString.eqb k k' then Some v else None
      end
  end.

(** [v.k] for one of the names the sources read ([message], [detail],
    [timestamp]); no prototype defines them, so only a parsed object can
    hold them, and reading them off [null] or [undefined] throws. *)
Definition getProp (v : jsval) (k : string) : completion jsval :=
  match v with
  | None | Some JNull => Throw (TypeError (ReadOfNullish k))
  | Some (JObject members) => Normal (ownProperty (js k) members)
  | Some _ => Normal None
  end.

(** A parsed number that the engine holds as [0] or [-0]: a zero mantissa,
    or a magnitude at most [2^-1075], which rounds to zero. *)
Definition numberIsZero (n : jnumber) : bool :=
  (num_mantissa n =? 0)%N
  || ((num_exp10 n <? 0)
      && (Z.of_N (num_mantissa n) * 2 ^ 1075 <=? 10 ^ (- num_exp10 n))).

(** ToBoolean. *)
Definition truthy (v : jsval) : bool :=
  match v with
  | None | Some JNull => false
  | Some (JBool b) => b
  | Some (JNumber n) => negb (numberIsZero n)
  | Some (JString s) => negb (JsString.eqb s [])
  | Some (JArray _) | Some (JObject _) => true
  end.

(** [recv.includes(needle)] with a string argument: substring search on a
    string, membership on an array, a [TypeError] on anything else. *)
Definition callIncludes (recv : jsval) (needle : jsstring) : completion bool :=
  match recv with
  | None | Some JNull => Throw (TypeError (ReadOfNullish "includes"))
  | Some (JString s) => Normal (JsString.includes s needle)
  | Some (JArray items) =>
      Normal (existsb (fun x => match x with
                                | JString s => JsString.eqb s needle
                                | _ => false
                                end) items)
  | Some _ => Throw (TypeError (NotCallable "includes"))
  end.

(** [a || b] on values. *)
Definition or_val (a b : jsval) : jsval := if truthy a then a else b.

Fixpoint joinWith (sep : jsstring) (parts : list jsstring) : jsstring :=
  match parts with
  | [] => []
  | [p] => p
  | p :: rest => p ++ sep ++ joinWith sep rest
  end.

End JsValue.

(** What the host decides: number and time formatting, serialisation, and
    the wording of the engine's own error messages. *)
Class Platform := {
  (** Number::toString of a parsed number. *)
  NumberToString : jnumber -> jsstring;
  (** [new Date(v * 1000).toLocaleTimeString()] *)
  toLocaleTimeString : jsval -> jsstring;
  (** [JSON.stringify(v)] *)
  JSON_stringify : json -> jsstring;
  (** [e.message] of a [TypeError] raised by the engine. *)
  typeErrorMessage : type_error -> jsstring;
  (** [e.message] of the [SyntaxError] raised by [JSON.parse]. *)
  syntaxErrorMessage : jsstring -> jsstring
}.

Module Conv.
Section WithPlatform.
Context `{Platform}.

(** ToString.  An array joins the strings of its items ([null] gives the
    empty string); a parsed object that has its own [toString] member
    has lost the callable one and cannot be converted. *)
Fixpoint ToStringJson (v : json) : completion jsstring :=
  match v with
  | JNull => Normal (js "null")
  | JBool true => Normal (js "true")
  | JBool false => Normal (js "false")
  | JNumber n => Normal (NumberToString n)
  | JString s => Normal s
  | JArray items =>
      (fix items_strings (l : list json) : completion (list jsstring) :=
         match l with
         | [] => Normal []
         | x :: l' =>
             match (match x with
                    | JNull => Normal []
                    | _ => ToStringJson x
                    end) with
             | Normal s =>
                 match items_strings l' with
                 | Normal rest => Normal (s :: rest)
                 | Throw e => Throw e
                 end
             | Throw e => Throw e
             end
         end) items ≫= fun parts => Normal (JsValue.joinWith (js ",") parts)
  | JObject members =>
      match JsValue.ownProperty (js "toString") members with
      | Some _ => Throw (TypeError NoPrimitive)
      | None => Normal (js "[object Object]")
      end
  end.

Definition ToString (v : jsval) : completion jsstring :=
  match v with
  | None => Normal (js "undefined")
  | Some j => ToStringJson j
  end.

(** ToNumber, kept only for whether it throws: primitives never do;
    arrays and objects go through the same [toString] as above. *)
Definition ToNumber_check (v : jsval) : completion unit :=
  match v with
  | Some (JArray _) | Some (JObject _) => ToString v ≫= fun _ => Normal tt
  | _ => Normal tt
  end.

(** [error.message] in a [catch] clause. *)
Definition exn_message (e : exn) : jsval :=
  match e with
  | JsError m => Some (JString m)
  | TypeError why => Some (JString (typeErrorMessage why))
  | SyntaxError text => Some (JString (syntaxErrorMessage text))
  | FetchFailed m => Some (JString m)
  | ThrownResponse _ => None
  end.
End WithPlatform.
End Conv.

(* ===================================================================== *)
(** ** The log stream consumers *)
(* ===================================================================== *)

(** What a handler does besides updating component state. *)
Inductive effect :=
| Close            (* [eventSource.close()] *)
| ConsoleLog
| ConsoleError.

(** The three callbacks a component installs on its [EventSource], and the
    connection badge it shows, when it shows one. *)
Record Consumer := mkConsumer {
  cstate : Type;
  initial : cstate;
  onopen : N -> cstate -> cstate * list effect;      (* [Date.now()] given *)
  onmessage : jsstring -> cstate -> cstate * list effect;
  onerror : cstate -> cstate * list effect;
  badge : cstate -> option bool
}.

(** *** [LogPanel] (admin dashboard): filtered, no status *)
Module LogPanel.

Definition integer (n : N) : json :=
  JNumber {| num_neg := false; num_mantissa := n; num_exp10 := 0 |}.

(** [{ message: 'Connected to log stream...', level: 'system', timestamp: Date.now() }] *)
Definition connectedEntry (now : N) : json :=
  JObject [ (js "message", JString (js "Connected to log stream..."));
            (js "level", JString (js "system"));
            (js "timestamp", integer now) ].

Definition checkMark : jsstring := [9989%N].   (* U+2705 *)
Definition crossMark : jsstring := [10060%N].  (* U+274C *)

(** The five alternatives of [shouldShow], left to right, each reading
    [logData.message] again and stopping at the first that holds. *)
Definition shouldShow (logData : json) : completion bool :=
  let test needle (otherwise : completion bool) : completion bool :=
    m ← JsValue.getProp (Some logData) "message";
    b ← JsValue.callIncludes m needle;
    if b : bool then Normal true else otherwise in
  test (js "Success")
    (test (js "Failed")
       (test (js "Error")
          (test checkMark
             (test crossMark (Normal false))))).

Definition stripQuotes (data : jsstring) : jsstring :=
  if JsString.startsWith data (js "'") && JsString.endsWith data (js "'")
  then JsString.slice data 1 (-1)
  else data.

Definition handleOpen (now : N) (logs : list json) : list json * list effect :=
  (logs ++ [connectedEntry now], [ConsoleLog]).

Definition handleMessage (data : jsstring) (logs : list json)
  : list json * list effect :=
  if JsString.eqb data [] || JsString.eqb (JsString.trim data) []
  then (logs, [])
  else
    match (logData ← JsValue.JSON_parse (stripQuotes data);
           show ← shouldShow logData;
           Normal (logData, show)) with
    | Normal (logData, true) => (logs ++ [logData], [])
    | Normal (_, false) => (logs, [])
    | Throw _ => (logs, [ConsoleError])
    end.

Definition handleError (logs : list json) : list json * list effect :=
  (logs, [ConsoleError]).

Definition clearLogs (logs : list json) : list json := [].

Definition consumer : Consumer :=
  {| cstate := list json;
     initial := [];
     onopen := handleOpen;
     onmessage := handleMessage;
     onerror := handleError;
     badge := fun _ => None |}.

End LogPanel.

(** *** The consumer inside [UploadCSVPublic] and [Index]: unfiltered,
        with the [isConnected] badge.  Both routes carry the same code. *)
Module RouteLogs.
Section WithPlatform.
Context `{Platform}.

Record state := mkState {
  logs : list jsstring;
  isConnected : bool
}.

(** [`[${new Date(data.timestamp * 1000).toLocaleTimeString()}] ${data.message}`] *)
Definition logMessage (data : json) : completion jsstring :=
  ts ← JsValue.getProp (Some data) "timestamp";
  _ ← Conv.ToNumber_check ts;
  m ← JsValue.getProp (Some data) "message";
  text ← Conv.ToString m;
  Normal (js "[" ++ toLocaleTimeString ts ++ js "] " ++ text).

Definition handleOpen (now : N) (s : state) : state * list effect :=
  ({| logs := logs s; isConnected := true |}, []).

Definition handleMessage (data : jsstring) (s : state) : state * list effect :=
  match (d ← JsValue.JSON_parse data; logMessage d) with
  | Normal line => ({| logs := logs s ++ [line]; isConnected := isConnected s |}, [])
  | Throw _ => (s, [ConsoleError])
  end.

Definition handleError (s : state) : state * list effect :=
  ({| logs := logs s; isConnected := false |}, [Close]).

Definition consumer : Consumer :=
  {| cstate := state;
     initial := {| logs := []; isConnected := false |};
     onopen := handleOpen;
     onmessage := handleMessage;
     onerror := handleError;
     badge := fun s => Some (isConnected s) |}.
End WithPlatform.
End RouteLogs.

(** *** The browser's [EventSource], as far as a consumer observes it *)
Module EventSource.

Inductive readyState := CONNECTING | OPEN | CLOSED.

(** What the browser raises: the connection opened, a message arrived, or
    the connection was lost; in the last case it either schedules a
    reconnection by itself or gives up. *)
Inductive signal :=
| SigOpen (now : N)
| SigMessage (data : jsstring)
| SigError (reconnecting : bool).

Section WithConsumer.
Variable C : Consumer.

Record stream := mkStream {
  ready : readyState;
  component : cstate C
}.

(** A mounted component: [new EventSource(url)]. *)
Definition mount : stream :=
  {| ready := CONNECTING; component := initial C |}.

Definition closes (effects : list effect) : bool :=
  existsb (fun e => match e with Close => true | _ => false end) effects.

Definition afterHandler (r : readyState) (res : cstate C * list effect) : stream :=
  {| ready := if closes (snd res) then CLOSED else r;
     component := fst res |}.

(** One signal.  A closed source fires nothing; otherwise the browser
    moves [readyState] and then runs the callback. *)
Definition dispatch (s : stream) (sig : signal) : stream :=
  match ready s with
  | CLOSED => s
  | _ =>
      match sig with
      | SigOpen now => afterHandler OPEN (onopen C now (component s))
      | SigMessage data => afterHandler (ready s) (onmessage C data (component s))
      | SigError reconnecting =>
          afterHandler (if reconnecting then CONNECTING else CLOSED)
                       (onerror C (component s))
      end
  end.

Definition run (sigs : list signal) (s : stream) : stream :=
  foldl dispatch s sigs.

(** The effect cleanup of the component: [eventSource.close()]. *)
Definition unmount (s : stream) : stream :=
  {| ready := CLOSED; component := component s |}.

(** On every error signal the source ends up closed and the badge reads
    "disconnected". *)
Definition tearsDownOnError : Prop :=
  forall (s : stream) (reconnecting : bool),
    ready s <> CLOSED ->
    let s' := dispatch s (SigError reconnecting) in
    ready s' = CLOSED /\ badge C (component s') = Some false.

(** Once an error was signalled, nothing the browser raises afterwards
    brings the source, or the badge, back to connected. *)
Definition neverConnectedAfterError : Prop :=
  forall (s : stream) (reconnecting : bool) (later : list signal),
    ready s <> CLOSED ->
    let s' := run later (dispatch s (SigError reconnecting)) in
    ready s' <> OPEN /\ badge C (component s') <> Some true.
End WithConsumer.

End EventSource.

(* ===================================================================== *)
(** ** HTTP as the server-side code sees it *)
(* ===================================================================== *)

Record File := mkFile {
  file_name : jsstring;
  file_size : Z;
  file_content : jsstring
}.

Inductive FormValue :=
| FString (s : jsstring)
| FFile (f : File).

(** A [FormData]: its entries in order. *)
Definition FormData : Type := list (string * FormValue).

(** [formData.get(name)]: the first entry of that name, or [null]. *)
Fixpoint formGet (fd : FormData) (name : string) : option FormValue :=
  match fd with
  | [] => None
  | (k, v) :: rest => if String.eqb k name then Some v else formGet rest name
  end.

Inductive Body :=
| BodyForm (fd : FormData)
| BodyText (text : jsstring).

(** The arguments of one [fetch(url, { method, headers, body })]. *)
Record FetchCall := mkFetchCall {
  call_url : jsstring;
  call_method : string;
  call_headers : gmap string jsstring;
  call_body : Body
}.

Record Response := mkResponse {
  status : Z;
  statusText : jsstring;
  body : jsstring
}.

(** [response.ok] *)
Definition ok (r : Response) : bool := (200 <=? status r) && (status r <=? 299).

(** A [fetch] either rejects or resolves with a response. *)
Inductive FetchResult :=
| FetchRejects (e : exn)
| FetchResolves (r : Response).

(** The network: what each call is answered with. *)
Definition Network : Type := FetchCall -> FetchResult.

(** [process.env] *)
Abbreviation Env := (gmap string jsstring).

(** [!s] for a string or [undefined]. *)
Definition unset (s : option jsstring) : bool :=
  match s with
  | None => true
  | Some v => JsString.eqb v []
  end.

(** [a || b] for strings or [undefined]. *)
Definition or_str (a b : option jsstring) : option jsstring :=
  if unset a then b else a.

(** A computation that may call the network: the calls made, in order, and
    how it completed. *)
Definition Traced (A : Type) : Type := list FetchCall * completion A.

(* ===================================================================== *)
(** ** Backend gateway *)
(* ===================================================================== *)

Module Gateway.
Section WithPlatform.
Context `{Platform}.

(** [await response.json()] *)
Definition response_json (r : Response) : completion json :=
  JsValue.JSON_parse (body r).

(** The two statements both operations run on a response that is not
    [ok], up to the wording [prefix] of the fallback:
    [const errorData = await response.json().catch(() => ({ detail: response.statusText }));
     throw new Error(errorData.detail || `<prefix>${response.statusText}`);] *)
Definition throwBackendError (prefix : string) (r : Response) : completion json :=
  let errorData :=
    match response_json r with
    | Normal v => v
    | Throw _ => JObject [(js "detail", JString (statusText r))]
    end in
  detail ← JsValue.getProp (Some errorData) "detail";
  message ← Conv.ToString
              (JsValue.or_val detail (Some (JString (js prefix ++ statusText r))));
  Throw (JsError message).

Definition msgBackendUnset : jsstring := js "PYTHON_BACKEND_URL is not set".
Definition msgShopUnset : jsstring :=
  js "SHOPIFY_STORE_URL (or SHOPIFY_SHOP_URL) is not set in .env".
Definition msgTokenUnset : jsstring := js "SHOPIFY_ACCESS_TOKEN is not set in .env".

(** [uploadCSV(file)].  The argument is whatever the caller took out of
    the submitted form. *)
Definition uploadCSV (env : Env) (net : Network) (file : FormValue) : Traced json :=
  let backendUrl := env !! "PYTHON_BACKEND_URL"%string in
  if unset backendUrl then ([], Throw (JsError msgBackendUnset))
  else
    let call := {| call_url := default [] backendUrl ++ js "/upload";
                   call_method := "POST";
                   call_headers := ∅;
                   call_body := BodyForm [("file"%string, file)] |} in
    ([call],
     match net call with
     | FetchRejects e => Throw e
     | FetchResolves response =>
         if negb (ok response)
         then throwBackendError "Upload failed: " response
         else response_json response
     end).

(** [pushToShopify()] *)
Definition pushToShopify (env : Env) (net : Network) : Traced json :=
  let backendUrl := env !! "PYTHON_BACKEND_URL"%string in
  let shopUrl := or_str (env !! "SHOPIFY_STORE_URL"%string)
                        (env !! "SHOPIFY_SHOP_URL"%string) in
  let accessToken := env !! "SHOPIFY_ACCESS_TOKEN"%string in
  if unset backendUrl then ([], Throw (JsError msgBackendUnset))
  else if unset shopUrl then ([], Throw (JsError msgShopUnset))
  else if unset accessToken then ([], Throw (JsError msgTokenUnset))
  else
    let call :=
      {| call_url := default [] backendUrl ++ js "/push-to-shopify";
         call_method := "POST";
         call_headers := {[ "Content-Type"%string := js "application/json" ]};
         call_body :=
           BodyText (JSON_stringify
                       (JObject [ (js "shop_url", JString (default [] shopUrl));
                                  (js "access_token",
                                   JString (default [] accessToken)) ])) |} in
    ([call],
     match net call with
     | FetchRejects e => Throw e
     | FetchResolves response =>
         if negb (ok response)
         then throwBackendError "Push failed: " response
         else response_json response
     end).
End WithPlatform.
End Gateway.

(* ===================================================================== *)
(** ** Webhook proxy ([/api/trigger-n8n]) *)
(* ===================================================================== *)

Module N8nProxy.
Section WithPlatform.
Context `{Platform}.

(** The incoming request: its [content-type] header, what
    [request.formData()] gives, and the text [request.json()] parses. *)
Record Request := mkRequest {
  contentTypeHeader : option jsstring;
  formData : completion FormData;
  bodyText : jsstring
}.

(** [NextResponse.json(payload, { status })] *)
Record Reply := mkReply {
  reply_status : Z;
  reply_payload : json
}.

Definition errorReply (message : jsstring) (code : Z) : Reply :=
  {| reply_status := code;
     reply_payload := JObject [(js "error", JString message)] |}.

(** The [catch] clause: [{ error: error.message || 'Internal Server Error' }], 500. *)
Definition caught (e : exn) : Reply :=
  match JsValue.or_val (Conv.exn_message e)
                       (Some (JString (js "Internal Server Error"))) with
  | Some (JString m) => errorReply m 500
  | _ => errorReply (js "Internal Server Error") 500
  end.

(** [const contentType = request.headers.get('content-type') || ''] *)
Definition contentType (request : Request) : jsstring :=
  default [] (or_str (contentTypeHeader request) (Some [])).

(** [contentType.includes('multipart/form-data')] *)
Definition isMultipart (request : Request) : bool :=
  JsString.includes (contentType request) (js "multipart/form-data").

(** The [payload] and [headers] prepared for forwarding. *)
Definition prepare (request : Request) : completion (Body * gmap string jsstring) :=
  let headers : gmap string jsstring := ∅ in
  if isMultipart request
  then
    fd ← formData request;
    Normal (BodyForm fd, headers)
  else
    parsed ← JsValue.JSON_parse (bodyText request);
    Normal (BodyText (JSON_stringify parsed),
            <[ "Content-Type"%string := js "application/json" ]> headers).

(** [fetch(n8nUrl, { method: 'POST', headers: headers, body: payload })] *)
Definition forwarded (n8nUrl : jsstring) (headers : gmap string jsstring)
           (payload : Body) : FetchCall :=
  {| call_url := n8nUrl; call_method := "POST";
     call_headers := headers; call_body := payload |}.

(** [POST(request)] *)
Definition POST (env : Env) (net : Network) (request : Request)
  : list FetchCall * Reply :=
  let n8nUrl := env !! "NEXT_PUBLIC_N8N_WEBHOOK_URL"%string in
  if unset n8nUrl
  then ([], errorReply (js "N8n webhook URL not configured.") 500)
  else
    match prepare request with
    | Throw e => ([], caught e)
    | Normal (payload, headers) =>
        let call := forwarded (default [] n8nUrl) headers payload in
        ([call],
         match net call with
         | FetchRejects e => caught e
         | FetchResolves response =>
             if negb (ok response)
             then errorReply (js "N8n responded with "
                                ++ JsString.ofZ (status response)
                                ++ js ": " ++ body response)
                             (status response)
             else
               {| reply_status := 200;
                  reply_payload :=
                    match Gateway.response_json response with
                    | Normal data => data
                    | Throw _ => JObject [(js "success", JBool true)]
                    end |}
         end)
    end.
End WithPlatform.
End N8nProxy.

(* ===================================================================== *)
(** ** Route actions *)
(* ===================================================================== *)

Module Routes.
Section WithPlatform.
Context `{Platform}.

(** The object an action returns; absent fields are [None]. *)
Record ActionData := mkActionData {
  r_action : option jsstring;
  r_status : jsstring;
  r_message : jsval;
  r_data : option json;
  r_timestamp : option N
}.

(** [{ status: "error", message }] *)
Definition errorData (message : jsval) : ActionData :=
  {| r_action := None; r_status := js "error"; r_message := message;
     r_data := None; r_timestamp := None |}.

(** [{ action: "upload", status: "error", message: "Please select a valid CSV file" }] *)
Definition noFileData : ActionData :=
  {| r_action := Some (js "upload"); r_status := js "error";
     r_message := Some (JString (js "Please select a valid CSV file"));
     r_data := None; r_timestamp := None |}.

Definition successData (action : string) (data : json) (timestamp : option N)
  : ActionData :=
  {| r_action := Some (js action); r_status := js "success"; r_message := None;
     r_data := Some data; r_timestamp := timestamp |}.

(** [formData.get("actionType") === name] *)
Definition actionTypeIs (fd : FormData) (name : string) : bool :=
  match formGet fd "actionType" with
  | Some (FString s) => JsString.eqb s (js name)
  | _ => false
  end.

(** [!file || file.size === 0] for an entry that is present; a text
    entry has no [size], and only the empty text is falsy. *)
Definition noFile (file : FormValue) : bool :=
  match file with
  | FString s => JsString.eqb s []
  | FFile f => file_size f =? 0
  end.

(** The body of the [try] block, shared by both routes up to the
    [timestamp: Date.now()] field that only [Index] adds. *)
Definition tryBlock (stamp : option N) (env : Env) (net : Network)
           (requestForm : completion FormData) : Traced ActionData :=
  match requestForm with
  | Throw e => ([], Throw e)
  | Normal fd =>
      if actionTypeIs fd "upload" then
        match formGet fd "file" with
        | Some file =>
            if noFile file then ([], Normal noFileData)
            else
              let '(calls, result) := Gateway.uploadCSV env net file in
              (calls, result ≫= fun data => Normal (successData "upload" data stamp))
        | None => ([], Normal noFileData)
        end
      else if actionTypeIs fd "push" then
        let '(calls, result) := Gateway.pushToShopify env net in
        (calls, result ≫= fun data => Normal (successData "push" data stamp))
      else ([], Normal (errorData (Some (JString (js "Invalid action")))))
  end.

(** [catch (error: any) { return { status: "error", message: error.message }; }] *)
Definition catchBlock (t : Traced ActionData) : Traced ActionData :=
  match t with
  | (calls, Throw e) => (calls, Normal (errorData (Conv.exn_message e)))
  | done => done
  end.

(** The action of the public route [UploadCSVPublic]. *)
Definition publicAction (env : Env) (net : Network)
           (requestForm : completion FormData) : Traced ActionData :=
  catchBlock (tryBlock None env net requestForm).

(** The action of the embedded route [Index]:
    [await authenticate.admin(request)] runs before the [try]. *)
Definition embeddedAction (authenticate_admin : completion unit) (now : N)
           (env : Env) (net : Network)
           (requestForm : completion FormData) : Traced ActionData :=
  match authenticate_admin with
  | Throw e => ([], Throw e)
  | Normal _ => catchBlock (tryBlock (Some now) env net requestForm)
  end.
End WithPlatform.
End Routes.

(* ===================================================================== *)
(** ** Vocabulary of the statements *)
(* ===================================================================== *)

(** The round trip of the two pager controls at page [p] of [pageCount]:
    which of the two orders come back to [p], and that the rendered window
    is then the one of [p]. *)
Definition roundTrips {W : Type} (prev next : Z -> Z) (window : Z -> W)
           (pageCount p : Z) : Prop :=
  (next (prev p) = p <-> 1 < p \/ pageCount = 1)
  /\ (prev (next p) = p <-> p < pageCount \/ pageCount = 1)
  /\ (1 < p \/ pageCount = 1 -> window (next (prev p)) = window p)
  /\ (p < pageCount \/ pageCount = 1 -> window (prev (next p)) = window p).


(** The relevance keywords. *)
Definition keywords : list jsstring :=
  [js "Success"; js "Failed"; js "Error"; LogPanel.checkMark; LogPanel.crossMark].

Definition containsKeyword (message : jsstring) : bool :=
  existsb (JsString.includes message) keywords.


(** An inbound message that encodes a log entry: the JSON text of an object
    whose [message] is a string and whose [timestamp] is a number (or any
    other primitive, or missing). *)
Record Arrival := mkArrival {
  a_data : jsstring;
  a_members : list (jsstring * json);
  a_message : jsstring;
  a_timestamp : jsval
}.


(** What one message adds to the buffer of the panel, and to the buffer of
    a route. *)
Definition panelKeeps (data : jsstring) : list json :=
  fst (LogPanel.handleMessage data []).

Definition routeKeeps `{Platform} (data : jsstring) : list jsstring :=
  RouteLogs.logs (fst (RouteLogs.handleMessage data (RouteLogs.mkState [] false))).


(** The texts of the scenarios. *)
Module Scenario.
Definition quoted (q : N) (s : jsstring) : jsstring := [q] ++ s ++ [q].
Definition doubleQuoted : jsstring -> jsstring := quoted 34.
Definition singleQuoted : jsstring -> jsstring := quoted 39.

(** [{'message': 'Success: synced'}] *)
Definition pythonDict : jsstring := js "{'message': 'Success: synced'}".

(** The same object as JSON text, with double-quoted key and string. *)
Definition jsonObject : jsstring :=
  js "{" ++ doubleQuoted (js "message") ++ js ": "
     ++ doubleQuoted (js "Success: synced") ++ js "}".

Definition syncedEntry : json :=
  JObject [(js "message", JString (js "Success: synced"))].

Definition backend : Env := {[ "PYTHON_BACKEND_URL"%string := js "http://127.0.0.1:8000" ]}.

Definition shopEnv : Env :=
  <[ "SHOPIFY_STORE_URL"%string := js "demo.myshopify.com" ]>
    (<[ "SHOPIFY_ACCESS_TOKEN"%string := js "shpat_0" ]> backend).

(** An environment with the backend and the token but no shop URL. *)
Definition noShopEnv : Env :=
  <[ "SHOPIFY_ACCESS_TOKEN"%string := js "shpat_0" ]> backend.

Definition n8nEnv : Env :=
  {[ "NEXT_PUBLIC_N8N_WEBHOOK_URL"%string := js "http://n8n.local/webhook" ]}.

(** A backend that answers every call with [500] and the given body. *)
Definition failing (text : jsstring) : Network :=
  fun _ => FetchResolves {| status := 500;
                            statusText := js "Internal Server Error";
                            body := text |}.

Definition csv : File :=
  {| file_name := js "products.csv"; file_size := 3; file_content := js "a,b" |}.

Definition uploadForm : FormData :=
  [("file"%string, FFile csv); ("actionType"%string, FString (js "upload"))].
End Scenario.

(** A host to run the scenarios on; every statement below that mentions a
    host holds for all of them. *)
Module ExampleHost.
Definition typeErrorText (why : type_error) : jsstring :=
  match why with
  | ReadOfNullish prop =>
      js "Cannot read properties of null (reading '" ++ js prop ++ js "')"
  | NotCallable prop => js prop ++ js " is not a function"
  | NoPrimitive => js "Cannot convert object to primitive value"
  end.

Definition numberText (n : jnumber) : jsstring :=
  (if num_neg n then js "-" else [])
    ++ JsString.ofZ (Z.of_N (num_mantissa n))
    ++ (if num_exp10 n =? 0 then [] else js "e" ++ JsString.ofZ (num_exp10 n)).

Fixpoint stringify (v : json) : jsstring :=
  match v with
  | JNull => js "null"
  | JBool true => js "true"
  | JBool false => js "false"
  | JNumber n => numberText n
  | JString s => Scenario.doubleQuoted s
  | JArray items => js "[" ++ JsValue.joinWith (js ",") (map stringify items) ++ js "]"
  | JObject members =>
      js "{" ++ JsValue.joinWith (js ",")
                  (map (fun kv => Scenario.doubleQuoted (fst kv) ++ js ":"
                                    ++ stringify (snd kv)) members)
         ++ js "}"
  end.

#[export] Instance host : Platform :=
  {| NumberToString := numberText;
     toLocaleTimeString := fun _ => js "12:00:00 PM";
     JSON_stringify := stringify;
     typeErrorMessage := typeErrorText;
     syntaxErrorMessage := fun text => js "Unexpected token in JSON" |}.
End ExampleHost.

(** The line an unfiltered route shows for an encoded entry. *)
Definition entryLine `{Platform} (a : Arrival) : jsstring :=
  js "[" ++ toLocaleTimeString (a_timestamp a) ++ js "] " ++ a_message a.

(** Two entries of the log source: progress chatter, and a result line. *)
Module Entries.
Definition field (k : string) (v : jsstring) : jsstring :=
  Scenario.doubleQuoted (js k) ++ js ": " ++ v.

Definition text (message : string) (seconds : string) : jsstring :=
  js "{" ++ field "message" (Scenario.doubleQuoted (js message)) ++ js ", "
     ++ field "timestamp" (js seconds) ++ js "}".


Definition result : Arrival :=
  {| a_data := text "Failed: 0" "18";
     a_members := [ (js "message", JString (js "Failed: 0"));
                    (js "timestamp", LogPanel.integer 18) ];
     a_message := js "Failed: 0";
     a_timestamp := Some (LogPanel.integer 18) |}.
End Entries.

(* ===================================================================== *)
(** ** Content service and the connection-test loaders *)
(* ===================================================================== *)

(** The network as a [fetch(url)] without options sees it: a GET, answered
    by URL. *)
Definition UrlNetwork : Type := jsstring -> FetchResult.

(** A computation that may GET: the URLs asked for, in order, and how it
    completed. *)
Definition Fetched (A : Type) : Type := list jsstring * completion A.

Module PythonService.

(** [getGeneratedContent()] *)
Definition getGeneratedContent (env : Env) (net : UrlNetwork) : Fetched json :=
  let backendUrl := env !! "PYTHON_BACKEND_URL"%string in
  if unset backendUrl then ([], Throw (JsError (js "PYTHON_BACKEND_URL is not set")))
  else
    let url := default [] backendUrl ++ js "/api/content" in
    ([url],
     match net url with
     | FetchRejects e => Throw e
     | FetchResolves response =>
         if negb (ok response)
         then Throw (JsError (js "Python backend error: " ++ statusText response))
         else Gateway.response_json response
     end).

End PythonService.

Module Loaders.
Section WithPlatform.
Context `{Platform}.

(** What a loader returns: [{ status, data }] or [{ status, message }]. *)
Record LoaderData := mkLoaderData {
  l_status : jsstring;
  l_data : option json;
  l_message : jsval
}.

(** The [try]/[catch] both loaders share. *)
Definition load (env : Env) (net : UrlNetwork) : Fetched LoaderData :=
  let '(urls, result) := PythonService.getGeneratedContent env net in
  (urls,
   match result with
   | Normal data =>
       Normal {| l_status := js "success"; l_data := Some data; l_message := None |}
   | Throw error =>
       Normal {| l_status := js "error"; l_data := None;
                 l_message := Conv.exn_message error |}
   end).

(** The loader of the public test route. *)
Definition publicLoader (env : Env) (net : UrlNetwork) : Fetched LoaderData :=
  load env net.

(** The loader of the embedded test route:
    [await authenticate.admin(request)] runs before the [try]. *)
Definition embeddedLoader (authenticate_admin : completion unit)
           (env : Env) (net : UrlNetwork) : Fetched LoaderData :=
  match authenticate_admin with
  | Throw e => ([], Throw e)
  | Normal _ => load env net
  end.

(** [status === "success" ? "✅ Connected" : "❌ Failed"] *)
Definition statusLine (d : LoaderData) : jsstring :=
  if JsString.eqb (l_status d) (js "success")
  then LogPanel.checkMark ++ js " Connected"
  else LogPanel.crossMark ++ js " Failed".

(** [{status === "error" && <p>Error: {message}</p>}] *)
Definition showsError (d : LoaderData) : bool :=
  JsString.eqb (l_status d) (js "error").
End WithPlatform.
End Loaders.

(* ===================================================================== *)
(** ** The file-specialised webhook proxy ([/api/upload]) *)
(* ===================================================================== *)

Module UploadProxy.
Section WithPlatform.
Context `{Platform}.

(** [!file] for a form entry that is present: only the empty text is
    falsy. *)
Definition falsyEntry (v : FormValue) : bool :=
  match v with
  | FString s => JsString.eqb s []
  | FFile _ => false
  end.

(** [formData.forEach((value, key) => { if (key !== 'file') n8nFormData.append(key, value) })] *)
Definition otherFields (fd : FormData) : FormData :=
  List.filter (fun kv => negb (String.eqb (fst kv) "file")) fd.

(** The fresh form: the file first, then the other fields. *)
Definition n8nFormData (file : FormValue) (fd : FormData) : FormData :=
  ("file"%string, file) :: otherFields fd.

(** What the proxy answers once the destination has answered. *)
Definition relay (answer : FetchResult) : N8nProxy.Reply :=
  match answer with
  | FetchRejects e => N8nProxy.caught e
  | FetchResolves response =>
      if negb (ok response)
      then N8nProxy.errorReply (js "N8n responded with "
                                  ++ JsString.ofZ (status response)
                                  ++ js ": " ++ body response)
                               (status response)
      else
        {| N8nProxy.reply_status := 200;
           N8nProxy.reply_payload :=
             match Gateway.response_json response with
             | Normal data => data
             | Throw _ => JObject [(js "success", JBool true)]
             end |}
  end.

(** [POST(request)] *)
Definition POST (env : Env) (net : Network) (request : N8nProxy.Request)
  : list FetchCall * N8nProxy.Reply :=
  match N8nProxy.formData request with
  | Throw e => ([], N8nProxy.caught e)
  | Normal fd =>
      match formGet fd "file" with
      | None => ([], N8nProxy.errorReply (js "No file received.") 400)
      | Some file =>
          if falsyEntry file
          then ([], N8nProxy.errorReply (js "No file received.") 400)
          else
            let n8nUrl := env !! "NEXT_PUBLIC_N8N_WEBHOOK_URL"%string in
            if unset n8nUrl
            then ([], N8nProxy.errorReply (js "N8n webhook URL not configured.") 500)
            else
              let call := N8nProxy.forwarded (default [] n8nUrl) ∅
                                             (BodyForm (n8nFormData file fd)) in
              ([call], relay (net call))
      end
  end.
End WithPlatform.
End UploadProxy.

(* ===================================================================== *)
(** ** [FileUpload] and the dashboard's [UploadPage] *)
(* ===================================================================== *)

(** What [FileUpload] hands to its parent: [{ ...data, file }]. *)
Record Uploaded := mkUploaded {
  up_data : json;
  up_file : option File
}.

Module FileUpload.
Section WithPlatform.
Context `{Platform}.

Inductive Status := StatusIdle | StatusSuccess | StatusError.

Definition targetUrl : jsstring := js "http://localhost:8000/upload".

Definition uploadCall (f : File) : FetchCall :=
  {| call_url := targetUrl; call_method := "POST"; call_headers := ∅;
     call_body := BodyForm [("file"%string, FFile f)] |}.

(** "Upload thành công! Đã đọc " *)
Definition successPrefix : jsstring :=
  [85; 112; 108; 111; 97; 100; 32; 116; 104; 224; 110; 104; 32; 99; 244; 110;
   103; 33; 32; 272; 227; 32; 273; 7885; 99; 32]%N.

(** " dòng." *)
Definition successSuffix : jsstring := [32; 100; 242; 110; 103; 46]%N.

(** "Có lỗi xảy ra khi tải lên. Vui lòng thử lại." *)
Definition fallbackMessage : jsstring :=
  [67; 243; 32; 108; 7895; 105; 32; 120; 7843; 121; 32; 114; 97; 32; 107; 104;
   105; 32; 116; 7843; 105; 32; 108; 234; 110; 46; 32; 86; 117; 105; 32; 108;
   242; 110; 103; 32; 116; 104; 7917; 32; 108; 7841; 105; 46]%N.

(** The body of the [try] block: the success message and what goes to the
    parent, or the thrown error. *)
Definition attempt (f : File) (answer : FetchResult) : completion (jsstring * Uploaded) :=
  match answer with
  | FetchRejects e => Throw e
  | FetchResolves response =>
      if ok response then
        data ← Gateway.response_json response;
        total ← JsValue.getProp (Some data) "total_rows";
        text ← Conv.ToString total;
        Normal (successPrefix ++ text ++ successSuffix,
                {| up_data := data; up_file := Some f |})
      else
        let errorData :=
          match Gateway.response_json response with
          | Normal v => v
          | Throw _ => JObject []
          end in
        detail ← JsValue.getProp (Some errorData) "detail";
        text ← Conv.ToString
                 (JsValue.or_val detail
                    (Some (JString (js "Upload failed with status: "
                                      ++ JsString.ofZ (status response)))));
        Throw (JsError text)
  end.

(** [error.message || 'Có lỗi ...'] *)
Definition errorText (e : exn) : jsstring :=
  match JsValue.or_val (Conv.exn_message e) (Some (JString fallbackMessage)) with
  | Some (JString m) => m
  | _ => fallbackMessage
  end.

Record state := mkState {
  file : option File;
  isUploading : bool;
  status : Status;
  message : jsstring
}.

Definition initial : state :=
  {| file := None; isUploading := false; status := StatusIdle; message := [] |}.

(** [uploadFile()]: the state when it has settled, the calls made and the
    notifications of the parent ([onUploadSuccess] is the required prop; the
    page passes [(d) => setData(d)], which returns). *)
Definition uploadFile (net : Network) (s : state)
  : state * list FetchCall * list Uploaded :=
  match file s with
  | None => (s, [], [])
  | Some f =>
      let call := uploadCall f in
      match attempt f (net call) with
      | Normal (text, uploaded) =>
          ({| file := file s; isUploading := false; status := StatusSuccess; message := text |},
           [call], [uploaded])
      | Throw e =>
          ({| file := file s; isUploading := false; status := StatusError;
              message := errorText e |},
           [call], [])
      end
  end.
End WithPlatform.
End FileUpload.

Module UploadPage.

Record state := mkState {
  data : option Uploaded;
  isPushing : bool;
  showLogs : bool
}.

Definition initial : state :=
  {| data := None; isPushing := false; showLogs := false |}.

Inductive pageEffect :=
| Alert (text : jsstring)
| Fetch (call : FetchCall)
| Timer (ms : Z)            (* [setTimeout(() => setIsPushing(false), ms)] *)
| Console.

(** [onUploadSuccess={(d) => setData(d)}] *)
Definition onUploadSuccess (d : Uploaded) (s : state) : state :=
  {| data := Some d; isPushing := isPushing s; showLogs := showLogs s |}.

(** [handleReset] *)
Definition handleReset (s : state) : state :=
  {| data := None; isPushing := false; showLogs := false |}.

(** [fetch('/api/trigger-n8n', { method: 'POST', body: formData })] *)
Definition triggerCall (f : File) : FetchCall :=
  {| call_url := js "/api/trigger-n8n"; call_method := "POST"; call_headers := ∅;
     call_body := BodyForm [("file"%string, FFile f)] |}.

Definition pushing (s : state) (busy : bool) : state :=
  {| data := data s; isPushing := busy; showLogs := true |}.

(** [handlePushToShopify()]: the state when it has settled, and what it did
    on the way. *)
Definition handlePushToShopify (net : Network) (s : state) : state * list pageEffect :=
  match data s ≫= up_file with
  | None => (s, [Alert (js "No file data found.")])
  | Some f =>
      let call := triggerCall f in
      let failed :=
        (pushing s false,
         [Fetch call; Console;
          Alert (js "Failed to trigger n8n workflow. Check console.");
          Timer 2000]) in
      match net call with
      | FetchRejects _ => failed
      | FetchResolves res =>
          if negb (ok res) then failed
          else (pushing s true, [Fetch call; Console; Timer 2000])
      end
  end.

(** The timer's callback: [setIsPushing(false)]. *)
Definition timerFires (s : state) : state :=
  {| data := data s; isPushing := false; showLogs := showLogs s |}.

(** What the page shows: the upload form, the log panel, the table. *)
Record view := mkView {
  showsUploadForm : bool;
  showsLogPanel : bool;
  showsTable : bool;
  pushButton : option bool     (* when rendered: whether it is disabled *)
}.

Definition render (s : state) : view :=
  match data s with
  | None => {| showsUploadForm := true; showsLogPanel := false;
               showsTable := false; pushButton := None |}
  | Some _ => {| showsUploadForm := false; showsLogPanel := showLogs s;
                 showsTable := true; pushButton := Some (isPushing s) |}
  end.

End UploadPage.

(* ===================================================================== *)
(** ** What the log panel looks for in a message *)
(* ===================================================================== *)

(** A message value on which one of the five [includes] calls of the panel
    answers [true]: a text with a keyword in it, or an array with a keyword
    among its items. *)
Definition hasKeyword (message : json) : bool :=
  match message with
  | JString m => containsKeyword m
  | JArray items =>
      existsb (fun k => existsb (fun x => match x with
                                          | JString s => JsString.eqb s k
                                          | _ => false
                                          end) items) keywords
  | _ => false
  end.

(* ===================================================================== *)
(** ** All the pages of a table *)
(* ===================================================================== *)

(** The page numbers [1 .. totalPages]. *)
Definition allPages {A : Type} (itemsPerPage : Z) (rows : list A) : list Z :=
  map Z.of_nat (seq 1 (Z.to_nat (Paging.totalPages itemsPerPage rows))).

(* ===================================================================== *)
(** ** [PriceLogsPage]: fetching a page of records *)
(* ===================================================================== *)

Module PriceLogsData.

Record state := mkState {
  logs : jsval;
  total : jsval;
  loading : bool;
  page : Z;
  statusFilter : jsstring
}.

(** The initial [useState] values. *)
Definition initial : state :=
  {| logs := Some (JArray []); total := Some (LogPanel.integer 0); loading := true;
     page := 1; statusFilter := js "ALL" |}.

(** The URL [fetchLogs] asks for. *)
Definition url (s : state) : jsstring :=
  js "http://localhost:8000/price-sync/logs?limit=" ++ JsString.ofZ PriceLogsPage.limit
     ++ js "&offset=" ++ JsString.ofZ (PriceLogsPage.offset (page s))
     ++ (if JsString.eqb (statusFilter s) (js "ALL") then []
         else js "&status=" ++ statusFilter s).

(** The body of the [try] block: the two values for [setLogs] and
    [setTotal], or the thrown error. *)
Definition attempt (answer : FetchResult) : completion (jsval * jsval) :=
  match answer with
  | FetchRejects e => Throw e
  | FetchResolves res =>
      if negb (ok res) then Throw (JsError (js "Failed to fetch logs"))
      else
        data ← Gateway.response_json res;
        entries ← JsValue.getProp (Some data) "logs";
        count ← JsValue.getProp (Some data) "total";
        Normal (entries, count)
  end.

(** [fetchLogs()], when it has settled. *)
Definition fetchLogs (net : UrlNetwork) (s : state) : state :=
  match attempt (net (url s)) with
  | Normal (entries, count) =>
      {| logs := entries; total := count; loading := false;
         page := page s; statusFilter := statusFilter s |}
  | Throw _ =>
      {| logs := logs s; total := total s; loading := false;
         page := page s; statusFilter := statusFilter s |}
  end.

(** The [onChange] of the status filter:
    [setStatusFilter(e.target.value); setPage(1)]. *)
Definition changeFilter (value : jsstring) (s : state) : state :=
  {| logs := logs s; total := total s; loading := loading s;
     page := 1; statusFilter := value |}.

End PriceLogsData.

(* ===================================================================== *)
(** ** [Sidebar] *)
(* ===================================================================== *)

Module Sidebar.

(** The [href]s of [links]. *)
Definition links : list jsstring := [js "/upload"; js "/price-logs"].

(** [pathname === link.href || pathname.startsWith(link.href)] *)
Definition isActive (pathname href : jsstring) : bool :=
  JsString.eqb pathname href || JsString.startsWith pathname href.

(** The links rendered as active. *)
Definition activeLinks (pathname : jsstring) : list jsstring :=
  List.filter (isActive pathname) links.

End Sidebar.

(* ===================================================================== *)
(** ** What the routes derive from the upload result *)
(* ===================================================================== *)

Module RouteData.

(** [csvData ? (csvData.products || csvData.data_preview || []) : []] *)
Definition allProducts (csv : json) : completion jsval :=
  if JsValue.truthy (Some csv) then
    products ← JsValue.getProp (Some csv) "products";
    if JsValue.truthy products then Normal products
    else
      preview ← JsValue.getProp (Some csv) "data_preview";
      Normal (JsValue.or_val preview (Some (JArray [])))
  else Normal (Some (JArray [])).





End RouteData.

(* ===================================================================== *)
(** ** How the routes style a log line, and what they submit *)
(* ===================================================================== *)

Inductive tone := ToneCritical | ToneSuccess | ToneInfo | ToneNone.

Module PublicLogLine.

Definition isError (log : jsstring) : bool :=
  (JsString.includes log (js "Error") || JsString.includes log (js "Failed")
   || JsString.includes log LogPanel.crossMark)
  && negb (JsString.includes log (js "Failed: 0")).

Definition isSuccess (log : jsstring) : bool :=
  JsString.includes log (js "Success") || JsString.includes log LogPanel.checkMark.

Definition isInfo (log : jsstring) : bool :=
  JsString.includes log (js "Starting") || JsString.includes log (js "completed").

(** The colours chosen by [if (isError) ... else if (isSuccess) ... else if (isInfo) ...]. *)
Definition lineTone (log : jsstring) : tone :=
  if isError log then ToneCritical
  else if isSuccess log then ToneSuccess
  else if isInfo log then ToneInfo
  else ToneNone.

End PublicLogLine.

Module IndexLogLine.

Definition isError (log : jsstring) : bool :=
  JsString.includes log (js "Error") || JsString.includes log (js "Failed")
  || JsString.includes log LogPanel.crossMark.

Definition isSuccess (log : jsstring) : bool :=
  JsString.includes log (js "Success") || JsString.includes log LogPanel.checkMark.

(** [fontWeight={isError || isSuccess ? "bold" : "regular"}] *)
Definition bold (log : jsstring) : bool := isError log || isSuccess log.

(** [tone={isError ? "critical" : isSuccess ? "success" : undefined}] *)
Definition lineTone (log : jsstring) : tone :=
  if isError log then ToneCritical
  else if isSuccess log then ToneSuccess
  else ToneNone.

End IndexLogLine.

Module RouteForms.

(** [handleUpload]: nothing without a file, otherwise the submitted form. *)
Definition handleUpload (file : option File) : option FormData :=
  match file with
  | None => None
  | Some f => Some [("file"%string, FFile f);
                    ("actionType"%string, FString (js "upload"))]
  end.

(** [handlePushToShopify]: the submitted form. *)
Definition handlePushToShopify : FormData :=
  [("actionType"%string, FString (js "push"))].

(** The [useEffect] on the navigation: [isProcessing] becomes [true] when a
    push is being submitted. *)
(** [uploadData?.status === "success"] and its like: the action data of
    the given action, with status success. *)
Definition succeeded (action : string) (actionData : option Routes.ActionData)
  : bool :=
  match actionData with
  | Some d =>
      match Routes.r_action d with
      | Some a => JsString.eqb a (js action)
      | None => false
      end
      && JsString.eqb (Routes.r_status d) (js "success")
  | None => false
  end.

(** The [useEffect] of [Index] on the action data:
    [if (pushData?.status === "success" && pushData?.timestamp) setIsProcessing(false)]. *)
Definition indexProcessingOnResult (actionData : option Routes.ActionData)
           (isProcessing : bool) : bool :=
  if succeeded "push" actionData
     && match actionData ≫= Routes.r_timestamp with
        | Some t => negb (t =? 0)%N
        | None => false
        end
  then false else isProcessing.

Definition processingOnSubmit (submitting : bool) (form : option FormData)
           (isProcessing : bool) : bool :=
  if submitting && match form with
                   | Some fd => Routes.actionTypeIs fd "push"
                   | None => false
                   end
  then true else isProcessing.

End RouteForms.

(* ===================================================================== *)
(** ** The connection badge of the routes *)
(* ===================================================================== *)

(** The badge of a route says "connected" exactly while its stream is open. *)
Definition badgeAgrees `{Platform} (s : EventSource.stream RouteLogs.consumer) : Prop :=
  RouteLogs.isConnected (EventSource.component _ s) = true
  <-> EventSource.ready _ s = EventSource.OPEN.

(* ===================================================================== *)
(** ** Further scenarios *)
(* ===================================================================== *)

Module Replies.

(** A backend that answers every call with [200] and the given body. *)
Definition answering (text : jsstring) : Network :=
  fun _ => FetchResolves {| status := 200; statusText := js "OK"; body := text |}.

(** A [fetch(url)] that finds the backend down. *)
Definition unreachable : UrlNetwork :=
  fun _ => FetchRejects (FetchFailed (js "fetch failed")).


Definition multipart (fd : FormData) : N8nProxy.Request :=
  N8nProxy.mkRequest (Some (js "multipart/form-data; boundary=x")) (Normal fd) [].


End Replies.

(* ===================================================================== *)
(** * Theorems *)
(* ===================================================================== *)

(** ** Pagination *)

Module JsFacts.

(** [ceil_div n d] is the ceiling of [n / d]. *)
Lemma ceil_div_bounds (n d : Z) :
  0 < d -> (Js.ceil_div n d - 1) * d < n <= Js.ceil_div n d * d.
Proof.
  intros Hd. unfold Js.ceil_div.
  pose proof (Z.div_mod (- n) d ltac:(lia)) as Hdm.
  pose proof (Z.mod_pos_bound (- n) d Hd) as Hm.
  nia.
Qed.

Lemma ceil_div_unique (n d q : Z) :
  0 < d -> (q - 1) * d < n <= q * d -> Js.ceil_div n d = q.
Proof. intros Hd Hq. pose proof (ceil_div_bounds n d Hd). nia. Qed.


Lemma slice_length {A : Type} (l : list A) (s e : Z) :
  0 <= s ->
  Z.of_nat (length (Js.slice l s e))
  = Z.max 0 (Js.rel_index (Z.of_nat (length l)) e - Z.min s (Z.of_nat (length l))).
Proof.
  intros Hs. unfold Js.slice. rewrite length_take, length_drop.
  unfold Js.rel_index.
  destruct (Z.ltb_spec s 0); [lia|]. destruct (Z.ltb_spec e 0); lia.
Qed.

Lemma slice_lookup {A : Type} (l : list A) (s e : Z) (i : nat) (x : A) :
  0 <= s -> Js.slice l s e !! i = Some x -> l !! (Z.to_nat s + i)%nat = Some x.
Proof.
  intros Hs. unfold Js.slice. unfold Js.rel_index at 2 3.
  destruct (Z.ltb_spec s 0); [lia|].
  intros Hl. apply lookup_take_Some in Hl as [Hl _].
  rewrite lookup_drop in Hl.
  destruct (Z.min_spec s (Z.of_nat (length l))) as [[? Hm]|[? Hm]]; rewrite Hm in Hl.
  - exact Hl.
  - rewrite Nat2Z.id in Hl. apply lookup_lt_Some in Hl. lia.
Qed.

End JsFacts.

Module PagingFacts.
Section WithPageSize.
Context {A : Type}.
Variable P : Z.
Hypothesis P_pos : 0 < P.

Lemma totalPages_bounds (rows : list A) :
  (Paging.totalPages P rows - 1) * P < Z.of_nat (length rows)
    <= Paging.totalPages P rows * P.
Proof. apply JsFacts.ceil_div_bounds, P_pos. Qed.

Lemma totalPages_nonneg (rows : list A) : 0 <= Paging.totalPages P rows.
Proof. pose proof (totalPages_bounds rows). nia. Qed.


Lemma window_length (rows : list A) (page : Z) :
  1 <= page <= Paging.pageCount P rows ->
  Z.of_nat (length (Paging.currentProducts P rows page))
  = Z.min P (Z.of_nat (length rows) - (page - 1) * P).
Proof.
  intros Hp. unfold Paging.currentProducts, Paging.startIndex.
  rewrite JsFacts.slice_length by nia.
  unfold Js.rel_index. destruct (Z.ltb_spec ((page - 1) * P + P) 0); [nia|].
  pose proof (totalPages_bounds rows).
  unfold Paging.pageCount in Hp. nia.
Qed.

Lemma window_lookup (rows : list A) (page : Z) (i : nat) (row : A) :
  1 <= page ->
  Paging.currentProducts P rows page !! i = Some row ->
  rows !! (Z.to_nat (Paging.startIndex P page) + i)%nat = Some row.
Proof.
  intros Hp. apply JsFacts.slice_lookup. unfold Paging.startIndex. nia.
Qed.

Lemma rowKeys_range (rows : list A) (page k : Z) :
  1 <= page <= Paging.pageCount P rows ->
  k ∈ Paging.rowKeys P rows page ->
  (page - 1) * P <= k < page * P.
Proof.
  intros Hp Hk. unfold Paging.rowKeys in Hk.
  apply list_elem_of_lookup in Hk as [i Hi].
  rewrite list_lookup_imap in Hi.
  destruct (Paging.currentProducts P rows page !! i) eqn:Hl; simpl in Hi; [|done].
  injection Hi as <-.
  apply lookup_lt_Some in Hl.
  pose proof (window_length rows page Hp).
  unfold Paging.startIndex. lia.
Qed.
End WithPageSize.
End PagingFacts.




(** C2.  For every row list of length [N], page size [P] and page in
    [1 .. pageCount], the rendered window has [min(P, N - (page-1)*P)] rows,
    its row at position [i] is row [startIndex + i] of the list, and no row
    key of it is a row key of any other page (in particular of the adjacent
    ones). *)
Theorem window_length_and_disjointness {A : Type} (P : Z) (rows : list A) (page : Z) :
  0 < P ->
  1 <= page <= Paging.pageCount P rows ->
  Z.of_nat (length (Paging.currentProducts P rows page))
    = Z.min P (Z.of_nat (length rows) - (page - 1) * P)
  /\ (forall (i : nat) (row : A),
        Paging.currentProducts P rows page !! i = Some row ->
        rows !! (Z.to_nat (Paging.startIndex P page) + i)%nat = Some row)
  /\ (forall (other k : Z),
        1 <= other <= Paging.pageCount P rows -> other <> page ->
        k ∈ Paging.rowKeys P rows page -> k ∉ Paging.rowKeys P rows other).
Proof.
  intros HP Hpage. split; [|split].
  - by apply PagingFacts.window_length.
  - intros i row. apply PagingFacts.window_lookup; lia.
  - intros other k Hother Hne Hk Hk'.
    apply (PagingFacts.rowKeys_range P HP) in Hk; [|done].
    apply (PagingFacts.rowKeys_range P HP) in Hk'; [|done].
    nia.
Qed.

Lemma window_length_and_disjointness_witness :
  let rows := seq 0 25 in
  Z.of_nat (length (CSVPreviewTable.currentProducts rows 3)) = Z.min 10 (25 - (3 - 1) * 10)
  /\ (forall (i : nat) (row : nat),
        CSVPreviewTable.currentProducts rows 3 !! i = Some row ->
        rows !! (Z.to_nat (CSVPreviewTable.startIndex 3) + i)%nat = Some row)
  /\ (forall (other k : Z),
        1 <= other <= Paging.pageCount 10 rows -> other <> 3 ->
        k ∈ Paging.rowKeys 10 rows 3 -> k ∉ Paging.rowKeys 10 rows other).
Proof.
  intros rows.
  apply (window_length_and_disjointness 10 rows 3);
    [lia | vm_compute; split; discriminate].
Defined.

(** The scenario of the spec: 25 rows at page size 10 give pages of 10, 10
    and 5 rows, and "next" is disabled on page 3. *)
Example pages_of_25_rows :
  let rows := seq 0 25 in
  map (fun page => length (CSVPreviewTable.currentProducts rows page)) [1; 2; 3]
    = [10; 10; 5]%nat
  /\ CSVPreviewTable.totalPages rows = 3
  /\ (nextDisabled <$> (CSVPreviewTable.pager <$> CSVPreviewTable.render rows 3))
     = Some true
  /\ nextDisabled (PolarisTable.pager 10 rows 3) = true.
Proof. vm_compute. auto. Qed.

Ltac bool_to_Z :=
  repeat match goal with
         | H : (_ || _) = true |- _ => apply orb_true_iff in H
         | H : (_ || _) = false |- _ => apply orb_false_iff in H as [? ?]
         | H : negb _ = true |- _ => apply negb_true_iff in H
         | H : negb _ = false |- _ => apply negb_false_iff in H
         | H : (_ =? _) = true |- _ => apply Z.eqb_eq in H
         | H : (_ =? _) = false |- _ => apply Z.eqb_neq in H
         | H : (_ <? _) = true |- _ => apply Z.ltb_lt in H
         | H : (_ <? _) = false |- _ => apply Z.ltb_ge in H
         | H : _ \/ _ |- _ => destruct H
         end.

Ltac pager_cases := repeat case_match; bool_to_Z; lia.

Module PagerFacts.
Section Rows.
Context {Row : Type}.

Lemma csv_pages (rows : list Row) (p : Z) :
  1 <= p <= Paging.pageCount 10 rows ->
  (CSVPreviewTable.clickNext rows (CSVPreviewTable.clickPrev rows p) = p
     <-> 1 < p \/ Paging.pageCount 10 rows = 1)
  /\ (CSVPreviewTable.clickPrev rows (CSVPreviewTable.clickNext rows p) = p
      <-> p < Paging.pageCount 10 rows \/ Paging.pageCount 10 rows = 1).
Proof.
  intros Hp.
  pose proof (PagingFacts.totalPages_nonneg 10 ltac:(lia) rows) as Ht.
  unfold Paging.pageCount in *.
  unfold CSVPreviewTable.clickNext, CSVPreviewTable.clickPrev, click,
    CSVPreviewTable.handlePrev, CSVPreviewTable.handleNext,
    CSVPreviewTable.totalPages, CSVPreviewTable.itemsPerPage.
  set (T := Paging.totalPages 10 rows) in *.
  pager_cases.
Qed.

Lemma polaris_pages (P : Z) (rows : list Row) (p : Z) :
  0 < P ->
  1 <= p <= Paging.pageCount P rows ->
  (PolarisTable.clickNext P rows (PolarisTable.clickPrev P rows p) = p
     <-> 1 < p \/ Paging.pageCount P rows = 1)
  /\ (PolarisTable.clickPrev P rows (PolarisTable.clickNext P rows p) = p
      <-> p < Paging.pageCount P rows \/ Paging.pageCount P rows = 1).
Proof.
  intros HP Hp.
  pose proof (PagingFacts.totalPages_nonneg P HP rows) as Ht.
  unfold Paging.pageCount in *.
  unfold PolarisTable.clickNext, PolarisTable.clickPrev, click, PolarisTable.pager,
    PolarisTable.onPrevious, PolarisTable.onNext, PolarisTable.totalPages. simpl.
  set (T := Paging.totalPages P rows) in *.
  pager_cases.
Qed.
End Rows.

Lemma pricelogs_pages (total p : Z) :
  0 <= total ->
  1 <= p <= Z.max 1 (PriceLogsPage.totalPages total) ->
  (PriceLogsPage.clickNext total (PriceLogsPage.clickPrev total p) = p
     <-> 1 < p \/ Z.max 1 (PriceLogsPage.totalPages total) = 1)
  /\ (PriceLogsPage.clickPrev total (PriceLogsPage.clickNext total p) = p
      <-> p < Z.max 1 (PriceLogsPage.totalPages total)
          \/ Z.max 1 (PriceLogsPage.totalPages total) = 1).
Proof.
  intros Htotal Hp.
  assert (Ht : 0 <= PriceLogsPage.totalPages total).
  { pose proof (JsFacts.ceil_div_bounds total 20 ltac:(lia)).
    unfold PriceLogsPage.totalPages, PriceLogsPage.limit. lia. }
  unfold PriceLogsPage.clickNext, PriceLogsPage.clickPrev, click, PriceLogsPage.pager,
    PriceLogsPage.prevPage, PriceLogsPage.nextPage. simpl.
  set (T := PriceLogsPage.totalPages total) in *.
  pager_cases.
Qed.

(** The pages decide the windows. *)
Lemma roundTrips_of_pages {W : Type} (prev next : Z -> Z) (window : Z -> W)
      (pageCount p : Z) :
  (next (prev p) = p <-> 1 < p \/ pageCount = 1)
  /\ (prev (next p) = p <-> p < pageCount \/ pageCount = 1) ->
  roundTrips prev next window pageCount p.
Proof.
  intros [Hpn Hnp]. unfold roundTrips. repeat split.
  - apply Hpn.
  - apply Hpn.
  - apply Hnp.
  - apply Hnp.
  - intros Hc. f_equal. by apply Hpn.
  - intros Hc. f_equal. by apply Hnp.
Qed.
End PagerFacts.

(** C3 (as the code has it).  From a valid page [p] of a table with
    [pageCount] pages, "previous" then "next" comes back to [p], with the
    same row window, exactly when [p > 1] or the table has a single page;
    "next" then "previous" comes back exactly when [p < pageCount] or the
    table has a single page.  This holds for the preview table, for the two
    route tables and for the price-log pager (whose window is the offset
    asked of the server). *)
Theorem previous_next_round_trip :
  (forall (Row : Type) (rows : list Row) (p : Z),
      1 <= p <= Paging.pageCount 10 rows ->
      roundTrips (CSVPreviewTable.clickPrev rows) (CSVPreviewTable.clickNext rows)
                 (CSVPreviewTable.currentProducts rows) (Paging.pageCount 10 rows) p)
  /\ (forall (Row : Type) (P : Z) (rows : list Row) (p : Z),
        P = UploadCSVPublicTable.itemsPerPage \/ P = IndexTable.itemsPerPage ->
        1 <= p <= Paging.pageCount P rows ->
        roundTrips (PolarisTable.clickPrev P rows) (PolarisTable.clickNext P rows)
                   (PolarisTable.currentData P rows) (Paging.pageCount P rows) p)
  /\ (forall (total p : Z),
        0 <= total ->
        1 <= p <= Z.max 1 (PriceLogsPage.totalPages total) ->
        roundTrips (PriceLogsPage.clickPrev total) (PriceLogsPage.clickNext total)
                   PriceLogsPage.offset (Z.max 1 (PriceLogsPage.totalPages total)) p).
Proof.
  split; [|split].
  - intros Row rows p Hp. by apply PagerFacts.roundTrips_of_pages, PagerFacts.csv_pages.
  - intros Row P rows p HP Hp.
    apply PagerFacts.roundTrips_of_pages, PagerFacts.polaris_pages; [|done].
    unfold UploadCSVPublicTable.itemsPerPage, IndexTable.itemsPerPage in HP. lia.
  - intros total p Htotal Hp.
    by apply PagerFacts.roundTrips_of_pages, PagerFacts.pricelogs_pages.
Qed.

Lemma previous_next_round_trip_witness :
  roundTrips (CSVPreviewTable.clickPrev (seq 0 25)) (CSVPreviewTable.clickNext (seq 0 25))
             (CSVPreviewTable.currentProducts (seq 0 25)) (Paging.pageCount 10 (seq 0 25)) 2
  /\ roundTrips (PolarisTable.clickPrev 8 (seq 0 25)) (PolarisTable.clickNext 8 (seq 0 25))
                (PolarisTable.currentData 8 (seq 0 25)) (Paging.pageCount 8 (seq 0 25)) 4
  /\ roundTrips (PriceLogsPage.clickPrev 41) (PriceLogsPage.clickNext 41)
                PriceLogsPage.offset (Z.max 1 (PriceLogsPage.totalPages 41)) 3.
Proof.
  split; [|split].
  - apply (proj1 previous_next_round_trip nat (seq 0 25) 2).
    vm_compute. split; discriminate.
  - apply (proj1 (proj2 previous_next_round_trip) nat 8 (seq 0 25) 4).
    + right. reflexivity.
    + vm_compute. split; discriminate.
  - apply (proj2 (proj2 previous_next_round_trip) 41 3).
    + lia.
    + vm_compute. split; discriminate.
Defined.

(** C3, the claim as worded, on the first and on the last page of a table
    of 25 rows: "previous" then "next" from page 1 ends on page 2, with
    another window, and "next" then "previous" from page 3 ends on page 2. *)
Lemma first_page_previous_then_next_moves_on :
  let rows := seq 0 25 in
  1 <= 1 <= Paging.pageCount 10 rows
  /\ CSVPreviewTable.clickNext rows (CSVPreviewTable.clickPrev rows 1) = 2
  /\ CSVPreviewTable.currentProducts rows
       (CSVPreviewTable.clickNext rows (CSVPreviewTable.clickPrev rows 1))
     <> CSVPreviewTable.currentProducts rows 1
  /\ 1 <= 3 <= Paging.pageCount 10 rows
  /\ CSVPreviewTable.clickPrev rows (CSVPreviewTable.clickNext rows 3) = 2
  /\ ~ (forall p : Z,
          1 <= p <= Paging.pageCount 10 rows ->
          CSVPreviewTable.clickNext rows (CSVPreviewTable.clickPrev rows p) = p
          /\ CSVPreviewTable.clickPrev rows (CSVPreviewTable.clickNext rows p) = p).
Proof.
  intros rows. repeat split; try (vm_compute; congruence).
  intros Hall. destruct (Hall 1) as [H1 _]; [vm_compute; split; discriminate|].
  vm_compute in H1. discriminate H1.
Qed.

(** ** The log stream consumers *)

Module JsonFacts.








End JsonFacts.

Module LogFacts.

Lemma shouldShow_string (members : list (jsstring * json)) (m : jsstring) :
  JsValue.ownProperty (js "message") members = Some (JString m) ->
  LogPanel.shouldShow (JObject members) = Normal (containsKeyword m).
Proof.
  intros Hm. unfold LogPanel.shouldShow, containsKeyword, keywords.
  simpl. rewrite Hm. simpl.
  repeat match goal with
         | |- context [JsString.includes m ?k] => destruct (JsString.includes m k); simpl
         end; reflexivity.
Qed.



(** The panel appends: what a message adds does not depend on the buffer. *)
Lemma panel_appends (data : jsstring) (logs : list json) :
  fst (LogPanel.handleMessage data logs) = logs ++ panelKeeps data.
Proof.
  unfold panelKeeps, LogPanel.handleMessage.
  destruct (JsString.eqb data [] || JsString.eqb (JsString.trim data) []); simpl;
    [by rewrite app_nil_r|].
  destruct (JsValue.JSON_parse (LogPanel.stripQuotes data)) as [logData|e]; simpl;
    [|by rewrite app_nil_r].
  destruct (LogPanel.shouldShow logData) as [[|]|e]; simpl;
    by rewrite ?app_nil_r.
Qed.


(** The panel drops a message whose text has no keyword, wrapped in
    apostrophes or not. *)
Lemma panel_excludes (data : jsstring) (members : list (jsstring * json))
      (m : jsstring) (logs : list json) :
  Json.parse (LogPanel.stripQuotes data) = Some (JObject members) ->
  JsValue.ownProperty (js "message") members = Some (JString m) ->
  containsKeyword m = false ->
  fst (LogPanel.handleMessage data logs) = logs.
Proof.
  intros Hp Hm Hk. unfold LogPanel.handleMessage.
  destruct (JsString.eqb data [] || JsString.eqb (JsString.trim data) []); [done|].
  unfold JsValue.JSON_parse. rewrite Hp. simpl.
  rewrite (shouldShow_string _ _ Hm), Hk. reflexivity.
Qed.

Section WithPlatform.
Context `{Platform}.

Lemma route_appends (data : jsstring) (s : RouteLogs.state) :
  RouteLogs.logs (fst (RouteLogs.handleMessage data s))
  = RouteLogs.logs s ++ routeKeeps data.
Proof.
  unfold routeKeeps, RouteLogs.handleMessage.
  destruct (_ ≫= _) as [line|e]; simpl; by rewrite ?app_nil_r.
Qed.




End WithPlatform.
End LogFacts.

Module StreamFacts.
Import EventSource.
Section WithConsumer.
Variable C : Consumer.

Lemma dispatch_closed (s : stream C) (sig : signal) :
  ready C s = CLOSED -> dispatch C s sig = s.
Proof. intros Hc. unfold dispatch. by rewrite Hc. Qed.

Lemma run_closed (sigs : list signal) (s : stream C) :
  ready C s = CLOSED -> run C sigs s = s.
Proof.
  intros Hc. unfold run. induction sigs as [|sig sigs IH]; [done|].
  simpl. by rewrite dispatch_closed.
Qed.
End WithConsumer.

Section WithPlatform.
Context `{Platform}.

Lemma route_error (s : stream RouteLogs.consumer) (reconnecting : bool) :
  ready _ s <> CLOSED ->
  dispatch _ s (SigError reconnecting)
  = mkStream RouteLogs.consumer CLOSED
             (RouteLogs.mkState (RouteLogs.logs (component _ s)) false).
Proof.
  intros Hr. unfold dispatch. destruct (ready _ s); [reflexivity | reflexivity | done].
Qed.
End WithPlatform.
End StreamFacts.

(** C4 (as the code has it).  When the panel receives the JSON text
    [{"message": "Success: synced"}] wrapped in one pair of apostrophes, the
    only quote character it strips, it removes that one layer, parses the
    rest, finds the message relevant and appends the entry to the buffer. *)
Theorem apostrophe_wrapped_json_is_appended (logs : list json) :
  LogPanel.stripQuotes (Scenario.singleQuoted Scenario.jsonObject) = Scenario.jsonObject
  /\ Json.parse Scenario.jsonObject = Some Scenario.syncedEntry
  /\ JsValue.getProp (Some Scenario.syncedEntry) "message"
     = Normal (Some (JString (js "Success: synced")))
  /\ LogPanel.shouldShow Scenario.syncedEntry = Normal true
  /\ LogPanel.handleMessage (Scenario.singleQuoted Scenario.jsonObject) logs
     = (logs ++ [Scenario.syncedEntry], []).
Proof. repeat split; vm_compute; reflexivity. Qed.

(** C4, the claim as worded: the payload [{'message': 'Success: synced'}]
    in a pair of quotation marks is not stripped, parses to a string, and
    nothing is appended; in a pair of apostrophes it is stripped, what is
    left is no JSON text, and nothing is appended either. *)
Lemma quoted_python_dict_is_not_appended :
  LogPanel.stripQuotes (Scenario.doubleQuoted Scenario.pythonDict)
    = Scenario.doubleQuoted Scenario.pythonDict
  /\ Json.parse (Scenario.doubleQuoted Scenario.pythonDict)
     = Some (JString Scenario.pythonDict)
  /\ LogPanel.handleMessage (Scenario.doubleQuoted Scenario.pythonDict) []
     = ([], [ConsoleError])
  /\ LogPanel.stripQuotes (Scenario.singleQuoted Scenario.pythonDict)
     = Scenario.pythonDict
  /\ Json.parse Scenario.pythonDict = None
  /\ LogPanel.handleMessage (Scenario.singleQuoted Scenario.pythonDict) []
     = ([], [ConsoleError]).
Proof. repeat split; vm_compute; reflexivity. Qed.



(** C6 (as the code has it).  In the routes' consumer an error signal sets
    the badge to disconnected and closes the event source, and whatever the
    browser raises afterwards the source is never open and the badge never
    reads connected again. *)
Theorem route_consumers_tear_down_on_error `{Platform} :
  EventSource.tearsDownOnError RouteLogs.consumer
  /\ EventSource.neverConnectedAfterError RouteLogs.consumer.
Proof.
  split.
  - intros s reconnecting Hr. simpl. by rewrite StreamFacts.route_error.
  - intros s reconnecting later Hr. simpl.
    rewrite StreamFacts.route_error by done.
    rewrite StreamFacts.run_closed by done. simpl. split; congruence.
Qed.

Lemma route_consumers_tear_down_on_error_witness :
  let C := RouteLogs.consumer (H := ExampleHost.host) in
  let opened := EventSource.dispatch C (EventSource.mount C) (EventSource.SigOpen 1) in
  EventSource.ready C opened = EventSource.OPEN
  /\ badge C (EventSource.component C opened) = Some true
  /\ (let s' := EventSource.dispatch C opened (EventSource.SigError true) in
      EventSource.ready C s' = EventSource.CLOSED
      /\ badge C (EventSource.component C s') = Some false)
  /\ (let s' := EventSource.run C [EventSource.SigOpen 2; EventSource.SigMessage []]
                  (EventSource.dispatch C opened (EventSource.SigError true)) in
      EventSource.ready C s' <> EventSource.OPEN
      /\ badge C (EventSource.component C s') <> Some true).
Proof.
  intros C opened. split; [reflexivity|]. split; [reflexivity|]. split.
  - apply (proj1 (route_consumers_tear_down_on_error (H := ExampleHost.host)) opened true).
    vm_compute. discriminate.
  - apply (proj2 (route_consumers_tear_down_on_error (H := ExampleHost.host)) opened true
             [EventSource.SigOpen 2; EventSource.SigMessage []]).
    vm_compute. discriminate.
Defined.

(** C6, the claim as worded, for the panel: its error handler only writes
    to the console, so after an error the source is not closed, there is no
    badge to read disconnected, and the browser's own reconnection opens the
    stream again. *)
Lemma log_panel_keeps_the_connection_on_error :
  ~ EventSource.tearsDownOnError LogPanel.consumer
  /\ ~ EventSource.neverConnectedAfterError LogPanel.consumer
  /\ EventSource.run LogPanel.consumer
       [EventSource.SigOpen 1; EventSource.SigError true; EventSource.SigOpen 2]
       (EventSource.mount LogPanel.consumer)
     = EventSource.mkStream LogPanel.consumer EventSource.OPEN
         [LogPanel.connectedEntry 1; LogPanel.connectedEntry 2].
Proof.
  split; [|split].
  - intros Hall.
    destruct (Hall (EventSource.mount LogPanel.consumer) true) as [Hc _]; [discriminate|].
    discriminate Hc.
  - intros Hall.
    destruct (Hall (EventSource.mount LogPanel.consumer) true [EventSource.SigOpen 2])
      as [Hc _]; [discriminate|].
    by apply Hc.
  - reflexivity.
Qed.

(** ** Backend gateway *)

Module GatewayFacts.
Section WithPlatform.
Context `{Platform}.

Lemma throwBackendError_never_resolves (prefix : string) (r : Response) (v : json) :
  Gateway.throwBackendError prefix r <> Normal v.
Proof.
  unfold Gateway.throwBackendError.
  destruct (JsValue.getProp _ "detail") as [detail|e]; simpl; [|done].
  destruct (Conv.ToString _); simpl; done.
Qed.

Lemma throwBackendError_detail (prefix : string) (r : Response)
      (members : list (jsstring * json)) (detail : jsstring) :
  Json.parse (body r) = Some (JObject members) ->
  JsValue.ownProperty (js "detail") members = Some (JString detail) ->
  detail <> [] ->
  Gateway.throwBackendError prefix r = Throw (JsError detail).
Proof.
  intros Hp Hd Hne. unfold Gateway.throwBackendError, Gateway.response_json,
    JsValue.JSON_parse. rewrite Hp. simpl. rewrite Hd. simpl.
  unfold JsValue.or_val. simpl. destruct detail; [done|]. reflexivity.
Qed.

Lemma throwBackendError_unparsable (prefix : string) (r : Response) :
  Json.parse (body r) = None ->
  Gateway.throwBackendError prefix r
  = Throw (JsError (if JsString.eqb (statusText r) []
                    then js prefix ++ statusText r
                    else statusText r)).
Proof.
  intros Hp. unfold Gateway.throwBackendError, Gateway.response_json,
    JsValue.JSON_parse. rewrite Hp.
  change (JsValue.getProp _ "detail") with (Normal (A := jsval) (Some (JString (statusText r)))).
  unfold JsValue.or_val. simpl.
  destruct (JsString.eqb (statusText r) []); reflexivity.
Qed.

Lemma throwBackendError_no_detail (prefix : string) (r : Response)
      (v : json) (detail : jsval) :
  Json.parse (body r) = Some v ->
  JsValue.getProp (Some v) "detail" = Normal detail ->
  JsValue.truthy detail = false ->
  Gateway.throwBackendError prefix r = Throw (JsError (js prefix ++ statusText r)).
Proof.
  intros Hp Hd Ht. unfold Gateway.throwBackendError, Gateway.response_json,
    JsValue.JSON_parse. rewrite Hp. rewrite Hd. simpl.
  unfold JsValue.or_val. rewrite Ht. reflexivity.
Qed.

Lemma throwBackendError_null (prefix : string) (r : Response) :
  Json.parse (body r) = Some JNull ->
  Gateway.throwBackendError prefix r = Throw (TypeError (ReadOfNullish "detail")).
Proof.
  intros Hp. unfold Gateway.throwBackendError, Gateway.response_json,
    JsValue.JSON_parse. rewrite Hp. reflexivity.
Qed.

Lemma uploadCSV_rejects_non_2xx (env : Env) (net : Network) (file : FormValue)
      (call : FetchCall) (r : Response) (v : json) :
  fst (Gateway.uploadCSV env net file) = [call] ->
  net call = FetchResolves r -> ok r = false ->
  snd (Gateway.uploadCSV env net file) <> Normal v.
Proof.
  unfold Gateway.uploadCSV. destruct (unset _); simpl; [done|].
  intros [= <-] -> ->. simpl. apply throwBackendError_never_resolves.
Qed.

Lemma pushToShopify_rejects_non_2xx (env : Env) (net : Network)
      (call : FetchCall) (r : Response) (v : json) :
  fst (Gateway.pushToShopify env net) = [call] ->
  net call = FetchResolves r -> ok r = false ->
  snd (Gateway.pushToShopify env net) <> Normal v.
Proof.
  unfold Gateway.pushToShopify.
  destruct (unset (env !! _)); simpl; [done|].
  destruct (unset (or_str _ _)); simpl; [done|].
  destruct (unset (env !! _)); simpl; [done|].
  intros [= <-] -> ->. simpl. apply throwBackendError_never_resolves.
Qed.
End WithPlatform.
End GatewayFacts.

(** C7.  [pushToShopify] rejects, without any network call, when the
    backend base URL, the shop URL (both accepted variables) or the access
    token is unset; each case has its own message, the three messages are
    pairwise different, and when only the shop URL is unset the message
    names both shop URL variables. *)
Theorem push_requires_configuration `{Platform} (env : Env) (net : Network) :
  let backendUrl := env !! "PYTHON_BACKEND_URL"%string in
  let shopUrl := or_str (env !! "SHOPIFY_STORE_URL"%string)
                        (env !! "SHOPIFY_SHOP_URL"%string) in
  let accessToken := env !! "SHOPIFY_ACCESS_TOKEN"%string in
  (unset backendUrl = true ->
   Gateway.pushToShopify env net = ([], Throw (JsError Gateway.msgBackendUnset)))
  /\ (unset backendUrl = false -> unset shopUrl = true ->
      Gateway.pushToShopify env net = ([], Throw (JsError Gateway.msgShopUnset)))
  /\ (unset backendUrl = false -> unset shopUrl = false -> unset accessToken = true ->
      Gateway.pushToShopify env net = ([], Throw (JsError Gateway.msgTokenUnset)))
  /\ (unset backendUrl || unset shopUrl || unset accessToken = true ->
      exists m, m ∈ [Gateway.msgBackendUnset; Gateway.msgShopUnset; Gateway.msgTokenUnset]
                /\ Gateway.pushToShopify env net = ([], Throw (JsError m)))
  /\ NoDup [Gateway.msgBackendUnset; Gateway.msgShopUnset; Gateway.msgTokenUnset]
  /\ JsString.includes Gateway.msgShopUnset (js "SHOPIFY_STORE_URL") = true
  /\ JsString.includes Gateway.msgShopUnset (js "SHOPIFY_SHOP_URL") = true.
Proof.
  intros backendUrl shopUrl accessToken.
  unfold Gateway.pushToShopify. fold backendUrl shopUrl accessToken.
  repeat split.
  - by intros ->.
  - by intros -> ->.
  - by intros -> -> ->.
  - destruct (unset backendUrl); [intros _; eexists; split; [|reflexivity]; set_solver|].
    destruct (unset shopUrl); [intros _; eexists; split; [|reflexivity]; set_solver|].
    destruct (unset accessToken); [intros _; eexists; split; [|reflexivity]; set_solver|].
    done.
  - apply NoDup_ListNoDup. repeat constructor; vm_compute; intuition discriminate.
Qed.

Lemma push_requires_configuration_witness :
  Gateway.pushToShopify (H := ExampleHost.host) Scenario.noShopEnv (Scenario.failing [])
  = ([], Throw (JsError Gateway.msgShopUnset)).
Proof.
  apply (proj1 (proj2 (push_requires_configuration (H := ExampleHost.host)
                         Scenario.noShopEnv (Scenario.failing []))));
    vm_compute; reflexivity.
Defined.

(** C8, at the failing input: a response with status 500 whose body is the
    JSON text [null].  The body parses, so the fallback object is not used;
    reading [detail] off [null] raises a [TypeError], and both operations
    reject with that error instead of a message built from the status
    text. *)
Theorem null_error_body_rejects_with_TypeError `{Platform} :
  ok {| status := 500; statusText := js "Internal Server Error"; body := js "null" |} = false
  /\ Gateway.response_json
       {| status := 500; statusText := js "Internal Server Error"; body := js "null" |}
     = Normal JNull
  /\ snd (Gateway.uploadCSV Scenario.backend (Scenario.failing (js "null"))
                            (FFile Scenario.csv))
     = Throw (TypeError (ReadOfNullish "detail"))
  /\ snd (Gateway.pushToShopify Scenario.shopEnv (Scenario.failing (js "null")))
     = Throw (TypeError (ReadOfNullish "detail"))
  /\ Conv.exn_message (TypeError (ReadOfNullish "detail"))
     = Some (JString (typeErrorMessage (ReadOfNullish "detail"))).
Proof. repeat split; vm_compute; reflexivity. Qed.

(** ** Webhook proxy *)

Module ProxyFacts.
Section WithPlatform.
Context `{Platform}.
Import N8nProxy.

Lemma POST_calls (env : Env) (net : Network) (request : Request) :
  fst (POST env net request)
  = if unset (env !! "NEXT_PUBLIC_N8N_WEBHOOK_URL"%string) then []
    else match prepare request with
         | Normal (payload, headers) =>
             [N8nProxy.forwarded (default [] (env !! "NEXT_PUBLIC_N8N_WEBHOOK_URL"%string))
                        headers payload]
         | Throw _ => []
         end.
Proof.
  unfold POST. destruct (unset _); [done|].
  destruct (prepare request) as [[payload headers]|e]; reflexivity.
Qed.
End WithPlatform.
End ProxyFacts.

(** C9.  Every request the proxy forwards goes out, for a multipart
    content type, with the parsed form as body and an empty header map, and
    otherwise (a JSON content type) with the re-serialised body and the one
    header [Content-Type: application/json]; and it is forwarded, exactly
    once, whenever the webhook URL is configured and the body could be
    read. *)
Theorem proxy_content_type_policy `{Platform}
        (env : Env) (net : Network) (request : N8nProxy.Request) :
  (forall call, call ∈ fst (N8nProxy.POST env net request) ->
     if N8nProxy.isMultipart request
     then call_headers call = ∅
          /\ exists fd, N8nProxy.formData request = Normal fd /\ call_body call = BodyForm fd
     else call_headers call = {[ "Content-Type"%string := js "application/json" ]}
          /\ exists v, Json.parse (N8nProxy.bodyText request) = Some v
                       /\ call_body call = BodyText (JSON_stringify v))
  /\ (forall url fd,
        env !! "NEXT_PUBLIC_N8N_WEBHOOK_URL"%string = Some url -> url <> [] ->
        N8nProxy.isMultipart request = true ->
        N8nProxy.formData request = Normal fd ->
        fst (N8nProxy.POST env net request)
        = [N8nProxy.forwarded url ∅ (BodyForm fd)])
  /\ (forall url v,
        env !! "NEXT_PUBLIC_N8N_WEBHOOK_URL"%string = Some url -> url <> [] ->
        N8nProxy.isMultipart request = false ->
        Json.parse (N8nProxy.bodyText request) = Some v ->
        fst (N8nProxy.POST env net request)
        = [N8nProxy.forwarded url {[ "Content-Type"%string := js "application/json" ]}
                                (BodyText (JSON_stringify v))]).
Proof.
  rewrite ProxyFacts.POST_calls. unfold N8nProxy.prepare, JsValue.JSON_parse.
  split; [|split].
  - intros call Hcall.
    destruct (unset _); [by apply elem_of_nil in Hcall|].
    destruct (N8nProxy.isMultipart request).
    + destruct (N8nProxy.formData request) as [fd|e]; simpl in Hcall;
        [|by apply elem_of_nil in Hcall].
      apply list_elem_of_singleton in Hcall as ->. simpl. eauto.
    + destruct (Json.parse _) as [v|]; simpl in Hcall; [|by apply elem_of_nil in Hcall].
      apply list_elem_of_singleton in Hcall as ->. simpl. eauto.
  - intros url fd -> Hurl -> ->. simpl. destruct url; [done|]. reflexivity.
  - intros url v -> Hurl -> ->. simpl. destruct url; [done|]. reflexivity.
Qed.

Lemma proxy_content_type_policy_witness :
  let multipart :=
    N8nProxy.mkRequest (Some (js "multipart/form-data; boundary=x"))
                       (Normal Scenario.uploadForm) [] in
  let json :=
    N8nProxy.mkRequest (Some (js "application/json"))
                       (Throw (TypeError NoPrimitive)) Scenario.jsonObject in
  fst (N8nProxy.POST (H := ExampleHost.host) Scenario.n8nEnv (Scenario.failing []) multipart)
  = [N8nProxy.forwarded (js "http://n8n.local/webhook") ∅ (BodyForm Scenario.uploadForm)]
  /\ fst (N8nProxy.POST (H := ExampleHost.host) Scenario.n8nEnv (Scenario.failing []) json)
     = [N8nProxy.forwarded (js "http://n8n.local/webhook")
          {[ "Content-Type"%string := js "application/json" ]}
          (BodyText (ExampleHost.stringify Scenario.syncedEntry))].
Proof.
  intros multipart json. split.
  - apply (proj1 (proj2 (proxy_content_type_policy (H := ExampleHost.host)
                           Scenario.n8nEnv (Scenario.failing []) multipart)));
      [reflexivity | discriminate | reflexivity | reflexivity].
  - apply (proj2 (proj2 (proxy_content_type_policy (H := ExampleHost.host)
                           Scenario.n8nEnv (Scenario.failing []) json))
             (js "http://n8n.local/webhook") Scenario.syncedEntry);
      [reflexivity | discriminate | reflexivity | reflexivity].
Defined.

(** ** Route actions *)

Module RoutesFacts.
Section WithPlatform.
Context `{Platform}.
Import Routes.

Lemma catchBlock_total (t : Traced ActionData) :
  exists calls data, catchBlock t = (calls, Normal data).
Proof. destruct t as [calls [data|e]]; simpl; eauto. Qed.

Lemma catchBlock_throw (calls : list FetchCall) (e : exn) :
  catchBlock (calls, Throw e) = (calls, Normal (errorData (Conv.exn_message e))).
Proof. reflexivity. Qed.

Lemma tryBlock_upload (stamp : option N) (env : Env) (net : Network)
      (fd : FormData) (file : FormValue) :
  actionTypeIs fd "upload" = true ->
  formGet fd "file" = Some file -> noFile file = false ->
  tryBlock stamp env net (Normal fd)
  = (fst (Gateway.uploadCSV env net file),
     snd (Gateway.uploadCSV env net file)
       ≫= fun data => Normal (successData "upload" data stamp)).
Proof.
  intros Ha Hf Hn. unfold tryBlock. rewrite Ha, Hf, Hn.
  by destruct (Gateway.uploadCSV env net file).
Qed.

Lemma tryBlock_push (stamp : option N) (env : Env) (net : Network) (fd : FormData) :
  actionTypeIs fd "upload" = false ->
  actionTypeIs fd "push" = true ->
  tryBlock stamp env net (Normal fd)
  = (fst (Gateway.pushToShopify env net),
     snd (Gateway.pushToShopify env net)
       ≫= fun data => Normal (successData "push" data stamp)).
Proof.
  intros Ha Hp. unfold tryBlock. rewrite Ha, Hp.
  by destruct (Gateway.pushToShopify env net).
Qed.

Lemma tryBlock_invalid (stamp : option N) (env : Env) (net : Network) (fd : FormData) :
  actionTypeIs fd "upload" = false ->
  actionTypeIs fd "push" = false ->
  tryBlock stamp env net (Normal fd)
  = ([], Normal (errorData (Some (JString (js "Invalid action"))))).
Proof. intros Ha Hp. unfold tryBlock. by rewrite Ha, Hp. Qed.
End WithPlatform.
End RoutesFacts.

(** C10 (as the code has it).  The public route's action never throws, and
    the embedded route's action never throws once [authenticate.admin] has
    returned: an error raised by form parsing, by [uploadCSV] or by
    [pushToShopify] comes back as [{ status: "error", message }] with the
    error's message, and an unrecognised [actionType] comes back as
    [{ status: "error", message: "Invalid action" }]. *)
Theorem actions_return_errors_as_values `{Platform}
        (env : Env) (net : Network) (now : N) :
  let action requestForm :=
    Routes.publicAction env net requestForm in
  let embedded requestForm :=
    Routes.embeddedAction (Normal tt) now env net requestForm in
  (forall requestForm,
      (exists calls data, action requestForm = (calls, Normal data))
      /\ (exists calls data, embedded requestForm = (calls, Normal data)))
  /\ (forall e,
        action (Throw e) = ([], Normal (Routes.errorData (Conv.exn_message e)))
        /\ embedded (Throw e) = ([], Normal (Routes.errorData (Conv.exn_message e))))
  /\ (forall fd file e,
        Routes.actionTypeIs fd "upload" = true ->
        formGet fd "file" = Some file -> Routes.noFile file = false ->
        snd (Gateway.uploadCSV env net file) = Throw e ->
        snd (action (Normal fd)) = Normal (Routes.errorData (Conv.exn_message e))
        /\ snd (embedded (Normal fd)) = Normal (Routes.errorData (Conv.exn_message e)))
  /\ (forall fd e,
        Routes.actionTypeIs fd "upload" = false ->
        Routes.actionTypeIs fd "push" = true ->
        snd (Gateway.pushToShopify env net) = Throw e ->
        snd (action (Normal fd)) = Normal (Routes.errorData (Conv.exn_message e))
        /\ snd (embedded (Normal fd)) = Normal (Routes.errorData (Conv.exn_message e)))
  /\ (forall fd,
        Routes.actionTypeIs fd "upload" = false ->
        Routes.actionTypeIs fd "push" = false ->
        action (Normal fd)
          = ([], Normal (Routes.errorData (Some (JString (js "Invalid action")))))
        /\ embedded (Normal fd)
          = ([], Normal (Routes.errorData (Some (JString (js "Invalid action")))))).
Proof.
  intros action embedded. subst action embedded.
  unfold Routes.publicAction, Routes.embeddedAction.
  split; [|split; [|split; [|split]]].
  - intros requestForm. split; apply RoutesFacts.catchBlock_total.
  - intros e. split; reflexivity.
  - intros fd file e Ha Hf Hn Hthrow.
    rewrite !(RoutesFacts.tryBlock_upload _ _ _ _ file) by done.
    rewrite Hthrow. split; reflexivity.
  - intros fd e Ha Hp Hthrow.
    rewrite !RoutesFacts.tryBlock_push by done.
    rewrite Hthrow. split; reflexivity.
  - intros fd Ha Hp. by rewrite !RoutesFacts.tryBlock_invalid.
Qed.

Lemma actions_return_errors_as_values_witness :
  snd (Routes.publicAction (H := ExampleHost.host) Scenario.backend
         (Scenario.failing (js "null")) (Normal Scenario.uploadForm))
  = Normal (Routes.errorData
              (Conv.exn_message (H := ExampleHost.host) (TypeError (ReadOfNullish "detail"))))
  /\ snd (Routes.embeddedAction (H := ExampleHost.host) (Normal tt) 7 Scenario.backend
            (Scenario.failing (js "null")) (Normal Scenario.uploadForm))
     = Normal (Routes.errorData
                 (Conv.exn_message (H := ExampleHost.host)
                                   (TypeError (ReadOfNullish "detail")))).
Proof.
  apply (proj1 (proj2 (proj2 (actions_return_errors_as_values (H := ExampleHost.host)
                                Scenario.backend (Scenario.failing (js "null")) 7)))
           Scenario.uploadForm (FFile Scenario.csv));
    vm_compute; reflexivity.
Defined.

(** C10, the claim as worded, for the embedded route: what
    [authenticate.admin] throws is thrown by the action, since the call
    stands before the [try] block. *)
Lemma embedded_action_throws_when_authentication_throws :
  Routes.embeddedAction (H := ExampleHost.host) (Throw (ThrownResponse 302)) 0
                        Scenario.backend (Scenario.failing []) (Normal Scenario.uploadForm)
  = ([], Throw (ThrownResponse 302))
  /\ ~ (exists calls data,
          Routes.embeddedAction (H := ExampleHost.host) (Throw (ThrownResponse 302)) 0
                                Scenario.backend (Scenario.failing [])
                                (Normal Scenario.uploadForm)
          = (calls, Normal data)).
Proof.
  split; [reflexivity|].
  intros (calls & data & Heq). discriminate Heq.
Qed.

(* ===================================================================== *)
(** * More of the code *)
(* ===================================================================== *)

Set Warnings "-clear-no-such-hyp".

(** ** Pagination *)

Module WindowFacts.
Section WithPageSize.
Context {A : Type}.
Variable P : Z.
Hypothesis P_pos : 0 < P.

(** The window of the page after [j] full pages. *)
Lemma window_take_drop (rows : list A) (j : nat) :
  Paging.currentProducts P rows (Z.of_nat (S j))
  = take (Z.to_nat P) (drop (j * Z.to_nat P) rows).
Proof.
  unfold Paging.currentProducts, Paging.startIndex, Js.slice, Js.rel_index.
  replace ((Z.of_nat (S j) - 1) * P) with (Z.of_nat (j * Z.to_nat P)) by nia.
  set (s := (j * Z.to_nat P)%nat).
  destruct (Z.ltb_spec (Z.of_nat s) 0); [lia|].
  destruct (Z.ltb_spec (Z.of_nat s + P) 0); [lia|].
  destruct (decide (s <= length rows)%nat) as [Hs|Hs].
  - replace (Z.to_nat (Z.of_nat s `min` Z.of_nat (length rows))) with s by lia.
    destruct (decide (s + Z.to_nat P <= length rows)%nat).
    + f_equal. lia.
    + rewrite !take_ge; [done | rewrite length_drop; lia | rewrite length_drop; lia].
  - rewrite !drop_ge by lia. by rewrite !take_nil.
Qed.

Lemma windows_prefix (rows : list A) (k : nat) :
  concat (map (Paging.currentProducts P rows) (map Z.of_nat (seq 1 k)))
  = take (k * Z.to_nat P) rows.
Proof.
  induction k as [|k IH]; [done|].
  rewrite seq_S, !map_app, concat_app, IH. simpl.
  rewrite app_nil_r, window_take_drop.
  rewrite take_take_drop. f_equal. lia.
Qed.
End WithPageSize.
End WindowFacts.

(** X1.  The windows of the pages [1 .. totalPages], one after the other,
    are the row list: paging shows every row once and in order. *)
Theorem pages_cover_the_rows {A : Type} (P : Z) (rows : list A) :
  0 < P ->
  concat (map (Paging.currentProducts P rows) (allPages P rows)) = rows.
Proof.
  intros HP. unfold allPages. rewrite (WindowFacts.windows_prefix P HP).
  apply take_ge.
  pose proof (PagingFacts.totalPages_bounds P HP rows).
  pose proof (PagingFacts.totalPages_nonneg P HP rows). nia.
Qed.

Lemma pages_cover_the_rows_witness :
  concat (map (CSVPreviewTable.currentProducts (seq 0 25)) (allPages 10 (seq 0 25)))
  = seq 0 25.
Proof. apply (pages_cover_the_rows 10 (seq 0 25)). lia. Defined.

(** X2.  From a valid page a click on either control of any of the pagers
    leads to a valid page again. *)
Theorem clicks_keep_the_page_valid :
  (forall (Row : Type) (rows : list Row) (p : Z),
      1 <= p <= Paging.pageCount 10 rows ->
      1 <= CSVPreviewTable.clickPrev rows p <= Paging.pageCount 10 rows
      /\ 1 <= CSVPreviewTable.clickNext rows p <= Paging.pageCount 10 rows)
  /\ (forall (Row : Type) (P : Z) (rows : list Row) (p : Z),
        0 < P ->
        1 <= p <= Paging.pageCount P rows ->
        1 <= PolarisTable.clickPrev P rows p <= Paging.pageCount P rows
        /\ 1 <= PolarisTable.clickNext P rows p <= Paging.pageCount P rows)
  /\ (forall (total p : Z),
        0 <= total ->
        1 <= p <= Z.max 1 (PriceLogsPage.totalPages total) ->
        1 <= PriceLogsPage.clickPrev total p <= Z.max 1 (PriceLogsPage.totalPages total)
        /\ 1 <= PriceLogsPage.clickNext total p
           <= Z.max 1 (PriceLogsPage.totalPages total)).
Proof.
  split; [|split].
  - intros Row rows p Hp.
    pose proof (PagingFacts.totalPages_nonneg 10 ltac:(lia) rows) as Ht.
    unfold Paging.pageCount in *.
    unfold CSVPreviewTable.clickNext, CSVPreviewTable.clickPrev, click,
      CSVPreviewTable.handlePrev, CSVPreviewTable.handleNext,
      CSVPreviewTable.totalPages, CSVPreviewTable.itemsPerPage.
    set (T := Paging.totalPages 10 rows) in *.
    split; pager_cases.
  - intros Row P rows p HP Hp.
    pose proof (PagingFacts.totalPages_nonneg P HP rows) as Ht.
    unfold Paging.pageCount in *.
    unfold PolarisTable.clickNext, PolarisTable.clickPrev, click, PolarisTable.pager,
      PolarisTable.onPrevious, PolarisTable.onNext, PolarisTable.totalPages. simpl.
    set (T := Paging.totalPages P rows) in *.
    split; pager_cases.
  - intros total p Htotal Hp.
    assert (Ht : 0 <= PriceLogsPage.totalPages total).
    { pose proof (JsFacts.ceil_div_bounds total 20 ltac:(lia)).
      unfold PriceLogsPage.totalPages, PriceLogsPage.limit. lia. }
    unfold PriceLogsPage.clickNext, PriceLogsPage.clickPrev, click, PriceLogsPage.pager,
      PriceLogsPage.prevPage, PriceLogsPage.nextPage. simpl.
    set (T := PriceLogsPage.totalPages total) in *.
    split; pager_cases.
Qed.

Lemma clicks_keep_the_page_valid_witness :
  1 <= CSVPreviewTable.clickPrev (seq 0 25) 1 <= Paging.pageCount 10 (seq 0 25)
  /\ 1 <= CSVPreviewTable.clickNext (seq 0 25) 1 <= Paging.pageCount 10 (seq 0 25).
Proof.
  apply (proj1 clicks_keep_the_page_valid nat (seq 0 25) 1).
  vm_compute. split; discriminate.
Defined.

(** X3.  On a valid page of the preview table the number in the "#" cell of
    the [i]-th rendered row is [startIndex + i + 1], and the record beside
    it is the row of that number in the list (counting from one). *)
Theorem row_numbers_are_list_positions {Row : Type} (products : list Row)
        (page : Z) (view : CSVPreviewTable.View) (i : nat) (n : Z) (row : Row) :
  1 <= page ->
  CSVPreviewTable.render products page = Some view ->
  CSVPreviewTable.rows view !! i = Some (n, row) ->
  n = (page - 1) * 10 + Z.of_nat i + 1
  /\ products !! Z.to_nat (n - 1) = Some row.
Proof.
  intros Hpage Hrender Hrow. unfold CSVPreviewTable.render in Hrender.
  destruct (length products =? 0)%nat; [done|].
  injection Hrender as <-. simpl in Hrow.
  rewrite list_lookup_imap in Hrow.
  destruct (CSVPreviewTable.currentProducts products page !! i) as [r|] eqn:Hi;
    simpl in Hrow; [|done].
  injection Hrow as <- <-.
  unfold CSVPreviewTable.startIndex, Paging.startIndex, CSVPreviewTable.itemsPerPage.
  split; [done|].
  apply (PagingFacts.window_lookup 10 ltac:(lia)) in Hi; [|lia].
  unfold Paging.startIndex in Hi.
  replace (Z.to_nat ((page - 1) * 10 + Z.of_nat i + 1 - 1))
    with (Z.to_nat ((page - 1) * 10) + i)%nat by lia.
  exact Hi.
Qed.

Lemma row_numbers_are_list_positions_witness :
  23 = (3 - 1) * 10 + Z.of_nat 2 + 1
  /\ seq 100 25 !! Z.to_nat (23 - 1) = Some 122%nat.
Proof.
  destruct (CSVPreviewTable.render (seq 100 25) 3) as [view|] eqn:Hrender;
    [|discriminate Hrender].
  apply (row_numbers_are_list_positions (seq 100 25) 3 view 2 23 122%nat);
    [lia | exact Hrender |].
  vm_compute in Hrender. injection Hrender as <-. reflexivity.
Defined.

(** X4.  The windows the price-log page asks of the server, [offset(p) ..
    offset(p) + limit - 1] for [p = 1, 2, ...], partition the records: the
    record at index [i] is in the window of page [i / 20 + 1] and of no
    other page. *)
Theorem price_log_windows_partition (i : Z) :
  0 <= i ->
  let p := i / PriceLogsPage.limit + 1 in
  1 <= p
  /\ PriceLogsPage.offset p <= i < PriceLogsPage.offset p + PriceLogsPage.limit
  /\ (forall q : Z,
        PriceLogsPage.offset q <= i < PriceLogsPage.offset q + PriceLogsPage.limit ->
        q = p).
Proof.
  intros Hi p. subst p. unfold PriceLogsPage.offset, PriceLogsPage.limit.
  pose proof (Z.div_mod i 20 ltac:(lia)) as Hdm.
  pose proof (Z.mod_pos_bound i 20 ltac:(lia)) as Hm.
  split; [nia|]. split; [nia|].
  intros q Hq. nia.
Qed.

Lemma price_log_windows_partition_witness :
  let p := 45 / PriceLogsPage.limit + 1 in
  1 <= p
  /\ PriceLogsPage.offset p <= 45 < PriceLogsPage.offset p + PriceLogsPage.limit
  /\ (forall q : Z,
        PriceLogsPage.offset q <= 45 < PriceLogsPage.offset q + PriceLogsPage.limit ->
        q = p).
Proof. apply (price_log_windows_partition 45). lia. Defined.

(** ** Strings *)

Module StringFacts.

Lemma eqb_eq (a b : jsstring) : JsString.eqb a b = true <-> a = b.
Proof.
  revert b. induction a as [|x a IH]; intros [|y b]; simpl; try done.
  rewrite andb_true_iff, N.eqb_eq, IH. split; [by intros [-> ->] | by intros [= -> ->]].
Qed.

(** [startsWith] finds a prefix. *)
Lemma startsWith_spec (s p : jsstring) :
  JsString.startsWith s p = true <-> exists b, s = p ++ b.
Proof.
  revert p. induction s as [|x s IH]; intros [|y p]; simpl.
  - split; [by exists [] | done].
  - split; [done | by intros [b Hb]].
  - split; [by eexists | done].
  - rewrite andb_true_iff, N.eqb_eq, IH. split.
    + intros [-> [b ->]]. eauto.
    + intros [b [= -> ->]]. eauto.
Qed.

(** [includes] finds a substring. *)
Lemma includes_spec (s p : jsstring) :
  JsString.includes s p = true <-> exists a b, s = a ++ p ++ b.
Proof.
  induction s as [|x s IH].
  - cbn [JsString.includes]. rewrite orb_false_r, startsWith_spec. split.
    + intros [b Hb]. exists [], b. exact Hb.
    + intros (a & b & Hab). destruct a; [eauto|done].
  - cbn [JsString.includes]. rewrite orb_true_iff, startsWith_spec, IH. split.
    + intros [[b Hb] | (a & b & ->)].
      * exists [], b. exact Hb.
      * exists (x :: a), b. reflexivity.
    + intros (a & b & Hab). destruct a as [|y a].
      * left. eauto.
      * right. injection Hab as -> ->. eauto.
Qed.

Lemma includes_app (pre s post p : jsstring) :
  JsString.includes s p = true -> JsString.includes (pre ++ s ++ post) p = true.
Proof.
  rewrite !includes_spec. intros (a & b & ->).
  exists (pre ++ a), (b ++ post). by rewrite <- !app_assoc.
Qed.

Lemma includes_trans (s p q : jsstring) :
  JsString.includes s p = true -> JsString.includes p q = true ->
  JsString.includes s q = true.
Proof.
  rewrite !includes_spec. intros (a & b & ->) (c & d & ->).
  exists (a ++ c), (d ++ b). by rewrite <- !app_assoc.
Qed.

(** A text that starts and ends with an apostrophe is the lone apostrophe
    or a text between two of them. *)
Lemma apostrophes_shape (data : jsstring) :
  JsString.startsWith data (js "'") = true ->
  JsString.endsWith data (js "'") = true ->
  data = js "'" \/ exists mid, data = Scenario.singleQuoted mid.
Proof.
  intros Hs He.
  apply startsWith_spec in Hs as [b ->].
  unfold JsString.endsWith in He. apply startsWith_spec in He as [c Hc].
  apply (f_equal (@rev N)) in Hc. rewrite rev_involutive, rev_app_distr in Hc.
  change (js "'") with [39%N] in *. simpl in Hc.
  destruct (rev c) as [|x mid]; simpl in Hc.
  - left. exact Hc.
  - right. injection Hc as <- ->. by exists mid.
Qed.

End StringFacts.

(** ** The log consumers *)

(** X5.  [stripQuotes] undoes one layer of apostrophes: it gives back what
    was wrapped, and on any text it either changes nothing or removes
    exactly the first and the last apostrophe (the lone apostrophe, which is
    both, becomes the empty text). *)
Theorem stripQuotes_removes_one_layer :
  (forall s : jsstring, LogPanel.stripQuotes (Scenario.singleQuoted s) = s)
  /\ (forall data : jsstring,
        LogPanel.stripQuotes data = data
        \/ data = Scenario.singleQuoted (LogPanel.stripQuotes data)
        \/ (data = js "'" /\ LogPanel.stripQuotes data = [])).
Proof.
  assert (Hwrap : forall s, LogPanel.stripQuotes (Scenario.singleQuoted s) = s).
  { intros s. unfold LogPanel.stripQuotes, Scenario.singleQuoted, Scenario.quoted.
    assert (Hs : JsString.startsWith ([39%N] ++ s ++ [39%N]) (js "'") = true)
      by (apply StringFacts.startsWith_spec; eexists; reflexivity).
    assert (He : JsString.endsWith ([39%N] ++ s ++ [39%N]) (js "'") = true).
    { unfold JsString.endsWith. apply StringFacts.startsWith_spec.
      exists (rev s ++ [39%N]). rewrite !rev_app_distr. reflexivity. }
    rewrite Hs, He. simpl.
    unfold JsString.slice, Js.slice, Js.rel_index. simpl length.
    rewrite length_app. simpl.
    replace (Z.to_nat (1 `min` _)) with 1%nat by lia.
    replace (Z.to_nat (_ - _)) with (length s) by lia.
    change (drop 1 (39%N :: s ++ [39%N])) with (s ++ [39%N]).
    apply take_app_length. }
  split; [exact Hwrap|].
  intros data.
  destruct (JsString.startsWith data (js "'")) eqn:Hs;
    [|left; unfold LogPanel.stripQuotes; by rewrite Hs].
  destruct (JsString.endsWith data (js "'")) eqn:He;
    [|left; unfold LogPanel.stripQuotes; by rewrite Hs, He].
  right. destruct (StringFacts.apostrophes_shape data Hs He) as [-> | [mid ->]].
  - right. split; reflexivity.
  - left. by rewrite Hwrap.
Qed.

Module PanelFacts.

(** What [shouldShow] answering [true] says of the entry. *)
Lemma shouldShow_true (entry : json) :
  LogPanel.shouldShow entry = Normal true ->
  exists message, JsValue.getProp (Some entry) "message" = Normal (Some message)
                  /\ hasKeyword message = true.
Proof.
  unfold LogPanel.shouldShow.
  destruct (JsValue.getProp (Some entry) "message") as [[message|]|e] eqn:Hm;
    simpl; [|done|done].
  intros Hshow. exists message. split; [done|].
  destruct message as [| b | n | m | items | members]; simpl in *; try done.
  - unfold containsKeyword, keywords. simpl.
    repeat match type of Hshow with
           | context [JsString.includes m ?k] =>
               destruct (JsString.includes m k); simpl in *; try done
           end.
  - unfold keywords. simpl.
    repeat match type of Hshow with
           | context [existsb ?f items] =>
               destruct (existsb f items); simpl in *; try done
           end.
Qed.

Lemma containsKeyword_app (pre s post : jsstring) :
  containsKeyword s = true -> containsKeyword (pre ++ s ++ post) = true.
Proof.
  unfold containsKeyword. rewrite !existsb_exists.
  intros (k & Hk & Hin). exists k. split; [done|]. by apply StringFacts.includes_app.
Qed.

(** [Index] prints in bold exactly the lines with a keyword. *)
Lemma bold_is_containsKeyword (log : jsstring) :
  IndexLogLine.bold log = containsKeyword log.
Proof.
  unfold IndexLogLine.bold, IndexLogLine.isError, IndexLogLine.isSuccess,
    containsKeyword, keywords. simpl.
  destruct (JsString.includes log (js "Success")),
           (JsString.includes log (js "Failed")),
           (JsString.includes log (js "Error")),
           (JsString.includes log LogPanel.checkMark),
           (JsString.includes log LogPanel.crossMark); reflexivity.
Qed.

End PanelFacts.

(** X6.  Whatever arrives, the panel's buffer is left as it was or grows by
    one entry, and an entry that it takes in is the parsed payload (one layer
    of apostrophes removed) with a [message] that holds a keyword: nothing
    irrelevant is ever shown. *)
Theorem panel_shows_only_relevant_entries (data : jsstring) (logs : list json) :
  fst (LogPanel.handleMessage data logs) = logs
  \/ exists entry message,
       fst (LogPanel.handleMessage data logs) = logs ++ [entry]
       /\ Json.parse (LogPanel.stripQuotes data) = Some entry
       /\ JsValue.getProp (Some entry) "message" = Normal (Some message)
       /\ hasKeyword message = true.
Proof.
  unfold LogPanel.handleMessage.
  destruct (JsString.eqb data [] || JsString.eqb (JsString.trim data) []); [by left|].
  unfold JsValue.JSON_parse.
  destruct (Json.parse (LogPanel.stripQuotes data)) as [entry|]; simpl; [|by left].
  destruct (LogPanel.shouldShow entry) as [[|]|e] eqn:Hshow; simpl; [|by left|by left].
  right. destruct (PanelFacts.shouldShow_true entry Hshow) as (message & Hm & Hk).
  exists entry, message. done.
Qed.

(** X7.  A payload that is no JSON text changes neither buffer, and the
    route consumer only writes to the console; the same holds for the JSON
    text [null], whose [message] cannot be read. *)
Theorem malformed_payload_changes_nothing `{Platform}
        (data : jsstring) (logs : list json) (s : RouteLogs.state) :
  (Json.parse (LogPanel.stripQuotes data) = None ->
   fst (LogPanel.handleMessage data logs) = logs)
  /\ (Json.parse data = None ->
      RouteLogs.handleMessage data s = (s, [ConsoleError]))
  /\ (Json.parse data = Some JNull ->
      fst (LogPanel.handleMessage data logs) = logs
      /\ RouteLogs.handleMessage data s = (s, [ConsoleError])).
Proof.
  split; [|split].
  - intros Hp. unfold LogPanel.handleMessage, JsValue.JSON_parse. rewrite Hp.
    by destruct (_ || _).
  - intros Hp. unfold RouteLogs.handleMessage, JsValue.JSON_parse. by rewrite Hp.
  - intros Hp. split.
    + unfold LogPanel.handleMessage, JsValue.JSON_parse.
      destruct (_ || _); [done|].
      assert (Hq : LogPanel.stripQuotes data = data).
      { unfold LogPanel.stripQuotes. destruct data as [|c rest]; [done|].
        change (js "'") with [39%N]. simpl.
        destruct (N.eqb_spec c 39) as [->|]; [discriminate Hp | done]. }
      rewrite Hq, Hp. reflexivity.
    + unfold RouteLogs.handleMessage, JsValue.JSON_parse. by rewrite Hp.
Qed.

Lemma malformed_payload_changes_nothing_witness :
  RouteLogs.handleMessage (H := ExampleHost.host) Scenario.pythonDict (RouteLogs.mkState [] true)
  = ((RouteLogs.mkState [] true), [ConsoleError])
  /\ fst (LogPanel.handleMessage (js "null") [Scenario.syncedEntry]) = [Scenario.syncedEntry].
Proof.
  split.
  - apply (proj1 (proj2 (malformed_payload_changes_nothing (H := ExampleHost.host)
                           Scenario.pythonDict [] (RouteLogs.mkState [] true)))).
    vm_compute. reflexivity.
  - apply (proj2 (proj2 (malformed_payload_changes_nothing (H := ExampleHost.host)
                           (js "null") [Scenario.syncedEntry] (RouteLogs.mkState [] true)))).
    vm_compute. reflexivity.
Defined.

Module StreamInvariants.
Section WithPlatform.
Context `{Platform}.
Import EventSource.

Lemma badgeAgrees_dispatch (s : stream RouteLogs.consumer) (sig : signal) :
  badgeAgrees s -> badgeAgrees (dispatch _ s sig).
Proof.
  unfold badgeAgrees, dispatch. intros Hs.
  destruct (ready _ s) eqn:Hr; [| |by rewrite Hr].
  - destruct sig as [now|data|rc]; simpl.
    + done.
    + unfold RouteLogs.handleMessage. destruct (_ ≫= _); simpl; by rewrite ?Hr.
    + split; done.
  - destruct sig as [now|data|rc]; simpl.
    + done.
    + unfold RouteLogs.handleMessage. destruct (_ ≫= _); simpl; by rewrite ?Hr.
    + split; done.
Qed.

Lemma badgeAgrees_run (sigs : list signal) (s : stream RouteLogs.consumer) :
  badgeAgrees s -> badgeAgrees (run _ sigs s).
Proof.
  revert s. unfold run. induction sigs as [|sig sigs IH]; intros s Hs; [done|].
  simpl. by apply IH, badgeAgrees_dispatch.
Qed.

Lemma panel_dispatch_prefix (s : stream LogPanel.consumer) (sig : signal) :
  component _ s `prefix_of` component _ (dispatch _ s sig).
Proof.
  unfold dispatch. destruct (ready _ s); [| |done].
  all: destruct sig as [now|data|rc]; simpl;
    [by apply prefix_app_r
    | rewrite LogFacts.panel_appends; by apply prefix_app_r
    | done].
Qed.

Lemma route_dispatch_prefix (s : stream RouteLogs.consumer) (sig : signal) :
  RouteLogs.logs (component _ s)
    `prefix_of` RouteLogs.logs (component _ (dispatch _ s sig)).
Proof.
  unfold dispatch. destruct (ready _ s); [| |done].
  all: destruct sig as [now|data|rc]; simpl;
    [done
    | rewrite LogFacts.route_appends; by apply prefix_app_r
    | done].
Qed.
End WithPlatform.
End StreamInvariants.

(** X8.  After any sequence of stream signals since the mount, a route's
    badge says "connected" exactly when its stream is open: it never shows
    a connection that is closed or still connecting, nor hides an open one. *)
Theorem badge_follows_the_connection `{Platform} (sigs : list EventSource.signal) :
  let s := EventSource.run RouteLogs.consumer sigs
             (EventSource.mount RouteLogs.consumer) in
  badge RouteLogs.consumer (EventSource.component _ s) = Some true
  <-> EventSource.ready _ s = EventSource.OPEN.
Proof.
  intros s.
  assert (Hs : badgeAgrees s)
    by (apply StreamInvariants.badgeAgrees_run; split; discriminate).
  unfold badgeAgrees in Hs. simpl. rewrite <- Hs.
  split; [by intros [= ->] | by intros ->].
Qed.

(** X9.  The log buffers only grow: whatever signals arrive, what a consumer
    showed before is a prefix of what it shows after (no entry is dropped,
    reordered or rewritten). *)
Theorem log_buffers_only_grow `{Platform} (sigs : list EventSource.signal) :
  (forall s : EventSource.stream LogPanel.consumer,
      EventSource.component _ s
        `prefix_of` EventSource.component _ (EventSource.run _ sigs s))
  /\ (forall s : EventSource.stream RouteLogs.consumer,
        RouteLogs.logs (EventSource.component _ s)
          `prefix_of` RouteLogs.logs (EventSource.component _ (EventSource.run _ sigs s))).
Proof.
  unfold EventSource.run. split.
  - induction sigs as [|sig sigs IH]; intros s; [done|]. simpl.
    etrans; [apply (StreamInvariants.panel_dispatch_prefix s sig) | apply IH].
  - induction sigs as [|sig sigs IH]; intros s; [done|]. simpl.
    etrans; [apply (StreamInvariants.route_dispatch_prefix s sig) | apply IH].
Qed.

(** X10.  [Index] prints a log line in bold exactly when the line holds one
    of the panel's keywords; so the line it builds from an entry whose
    message the panel would keep is bold and coloured. *)
Theorem index_emphasises_what_the_panel_keeps `{Platform} :
  (forall log : jsstring, IndexLogLine.bold log = containsKeyword log)
  /\ (forall a : Arrival,
        containsKeyword (a_message a) = true ->
        IndexLogLine.bold (entryLine a) = true
        /\ IndexLogLine.lineTone (entryLine a) <> ToneNone).
Proof.
  split; [apply PanelFacts.bold_is_containsKeyword|].
  intros a Hk.
  assert (Hb : IndexLogLine.bold (entryLine a) = true).
  { rewrite PanelFacts.bold_is_containsKeyword. unfold entryLine.
    rewrite <- (app_nil_r (a_message a)), (app_assoc (js "[")), (app_assoc _ (js "] ")).
    by apply PanelFacts.containsKeyword_app. }
  split; [done|].
  unfold IndexLogLine.bold in Hb. unfold IndexLogLine.lineTone.
  destruct (IndexLogLine.isError _), (IndexLogLine.isSuccess _); done.
Qed.

Lemma index_emphasises_what_the_panel_keeps_witness :
  IndexLogLine.bold (entryLine (H := ExampleHost.host) Entries.result) = true
  /\ IndexLogLine.lineTone (entryLine (H := ExampleHost.host) Entries.result) <> ToneNone.
Proof.
  apply (proj2 (index_emphasises_what_the_panel_keeps (H := ExampleHost.host))
           Entries.result).
  vm_compute. reflexivity.
Defined.

(** X11.  The tones of the public route against those of [Index]: a line
    with "Failed: 0" is never critical on the public route though it is on
    [Index]; a critical or success tone on the public route needs a keyword;
    and on a line with a keyword and without "Failed: 0" the two routes
    choose the same tone, critical or success. *)
Theorem public_route_line_tones (log : jsstring) :
  (JsString.includes log (js "Failed: 0") = true ->
   PublicLogLine.lineTone log <> ToneCritical
   /\ IndexLogLine.lineTone log = ToneCritical)
  /\ (PublicLogLine.lineTone log = ToneCritical \/ PublicLogLine.lineTone log = ToneSuccess ->
      containsKeyword log = true)
  /\ (containsKeyword log = true ->
      JsString.includes log (js "Failed: 0") = false ->
      PublicLogLine.lineTone log = IndexLogLine.lineTone log
      /\ PublicLogLine.lineTone log <> ToneNone
      /\ PublicLogLine.lineTone log <> ToneInfo).
Proof.
  assert (Hf : JsString.includes log (js "Failed: 0") = true ->
               JsString.includes log (js "Failed") = true).
  { intros Hz. apply (StringFacts.includes_trans _ _ _ Hz). reflexivity. }
  unfold PublicLogLine.lineTone, IndexLogLine.lineTone, PublicLogLine.isError,
    PublicLogLine.isSuccess, IndexLogLine.isError, IndexLogLine.isSuccess,
    containsKeyword, keywords. simpl.
  destruct (JsString.includes log (js "Failed: 0")) eqn:Hz;
    destruct (JsString.includes log (js "Failed")) eqn:HF;
    try (specialize (Hf eq_refl); discriminate Hf); clear Hf;
    destruct (JsString.includes log (js "Success")),
             (JsString.includes log (js "Error")),
             (JsString.includes log LogPanel.checkMark),
             (JsString.includes log LogPanel.crossMark); simpl;
    (split; [|split]); try done;
    try (intros [?|?]; done); try (split; done);
    try (intros; repeat case_match; done);
    try (intros [?|?]; repeat case_match; done).
Qed.

Lemma public_route_line_tones_witness :
  PublicLogLine.lineTone (js "Summary - Failed: 0") <> ToneCritical
  /\ IndexLogLine.lineTone (js "Summary - Failed: 0") = ToneCritical.
Proof.
  apply (proj1 (public_route_line_tones (js "Summary - Failed: 0"))).
  vm_compute. reflexivity.
Defined.

(** ** Backend gateway, loaders and proxies *)

Module ResponseFacts.
Section WithPlatform.
Context `{Platform}.

Lemma response_json_Normal (r : Response) (v : json) :
  Gateway.response_json r = Normal v <-> Json.parse (body r) = Some v.
Proof.
  unfold Gateway.response_json, JsValue.JSON_parse.
  destruct (Json.parse (body r)); split; intros Hx; by simplify_eq.
Qed.

(** A variable counts as set when it holds a non-empty text. *)
Lemma set_variable (o : option jsstring) :
  unset o = false -> exists v, o = Some v /\ v <> [].
Proof. destruct o as [[|x v]|]; simpl; try done. intros _. by eexists. Qed.
End WithPlatform.
End ResponseFacts.

(** X12.  [uploadCSV] and [pushToShopify] resolve with a value exactly when
    they made their one call, it was answered with a 2xx status, and the
    body parsed to that value; neither ever makes more than one call. *)
Theorem gateway_resolves_exactly_on_parsable_2xx `{Platform}
        (env : Env) (net : Network) (file : FormValue) (v : json) :
  (snd (Gateway.uploadCSV env net file) = Normal v
   <-> exists call r, fst (Gateway.uploadCSV env net file) = [call]
                      /\ net call = FetchResolves r
                      /\ ok r = true /\ Json.parse (body r) = Some v)
  /\ (snd (Gateway.pushToShopify env net) = Normal v
      <-> exists call r, fst (Gateway.pushToShopify env net) = [call]
                         /\ net call = FetchResolves r
                         /\ ok r = true /\ Json.parse (body r) = Some v)
  /\ (length (fst (Gateway.uploadCSV env net file)) <= 1)%nat
  /\ (length (fst (Gateway.pushToShopify env net)) <= 1)%nat.
Proof.
  split; [|split; [|split]].
  - unfold Gateway.uploadCSV. destruct (unset _); simpl.
    + split; [done | by intros (c & r & Hc & _)].
    + match goal with |- context [net ?c] => set (call := c) end.
      destruct (net call) as [e|r] eqn:Hnet.
      * split; [done|]. intros (c & r & [= <-] & Hn & _). congruence.
      * destruct (ok r) eqn:Hok; simpl.
        -- rewrite ResponseFacts.response_json_Normal. split.
           ++ intros Hp. exists call, r. done.
           ++ intros (c & r' & [= <-] & Hn & _ & Hp). congruence.
        -- split.
           ++ intros Hx. by apply GatewayFacts.throwBackendError_never_resolves in Hx.
           ++ intros (c & r' & [= <-] & Hn & Hok' & _). congruence.
  - unfold Gateway.pushToShopify.
    destruct (unset (env !! _)); simpl;
      [split; [done | by intros (c & r & Hc & _)]|].
    destruct (unset (or_str _ _)); simpl;
      [split; [done | by intros (c & r & Hc & _)]|].
    destruct (unset (env !! _)); simpl;
      [split; [done | by intros (c & r & Hc & _)]|].
    match goal with |- context [net ?c] => set (call := c) end.
    destruct (net call) as [e|r] eqn:Hnet.
    + split; [done|]. intros (c & r & [= <-] & Hn & _). congruence.
    + destruct (ok r) eqn:Hok; simpl.
      * rewrite ResponseFacts.response_json_Normal. split.
        -- intros Hp. exists call, r. done.
        -- intros (c & r' & [= <-] & Hn & _ & Hp). congruence.
      * split.
        -- intros Hx. by apply GatewayFacts.throwBackendError_never_resolves in Hx.
        -- intros (c & r' & [= <-] & Hn & Hok' & _). congruence.
  - unfold Gateway.uploadCSV. destruct (unset _); simpl; lia.
  - unfold Gateway.pushToShopify. repeat (destruct (unset _); simpl; [lia|]). lia.
Qed.

(** X13.  Every call the gateway makes carries the configuration: an upload
    goes to [PYTHON_BACKEND_URL + "/upload"] with the file as its only form
    field, a push goes to [PYTHON_BACKEND_URL + "/push-to-shopify"] as JSON
    with the shop URL ([SHOPIFY_STORE_URL], or [SHOPIFY_SHOP_URL] when that
    one is unset) and the access token, and all the values used are set and
    non-empty. *)
Theorem gateway_calls_carry_the_configuration `{Platform}
        (env : Env) (net : Network) (file : FormValue) (call : FetchCall) :
  (call ∈ fst (Gateway.uploadCSV env net file) ->
   exists backendUrl,
     env !! "PYTHON_BACKEND_URL"%string = Some backendUrl /\ backendUrl <> []
     /\ call = {| call_url := backendUrl ++ js "/upload"; call_method := "POST";
                  call_headers := ∅;
                  call_body := BodyForm [("file"%string, file)] |})
  /\ (call ∈ fst (Gateway.pushToShopify env net) ->
      exists backendUrl shopUrl accessToken,
        env !! "PYTHON_BACKEND_URL"%string = Some backendUrl /\ backendUrl <> []
        /\ env !! "SHOPIFY_ACCESS_TOKEN"%string = Some accessToken /\ accessToken <> []
        /\ shopUrl <> []
        /\ (env !! "SHOPIFY_STORE_URL"%string = Some shopUrl
            \/ (unset (env !! "SHOPIFY_STORE_URL"%string) = true
                /\ env !! "SHOPIFY_SHOP_URL"%string = Some shopUrl))
        /\ call = {| call_url := backendUrl ++ js "/push-to-shopify";
                     call_method := "POST";
                     call_headers := {[ "Content-Type"%string := js "application/json" ]};
                     call_body :=
                       BodyText (JSON_stringify
                                   (JObject [ (js "shop_url", JString shopUrl);
                                              (js "access_token", JString accessToken) ])) |}).
Proof.
  split.
  - unfold Gateway.uploadCSV.
    destruct (unset (env !! _)) eqn:Hb; simpl; [by intros ?%elem_of_nil|].
    intros ->%list_elem_of_singleton.
    destruct (ResponseFacts.set_variable _ Hb) as (backendUrl & Hu & Hne).
    rewrite Hu. simpl. eauto.
  - unfold Gateway.pushToShopify.
    destruct (unset (env !! "PYTHON_BACKEND_URL"%string)) eqn:Hb; simpl;
      [by intros ?%elem_of_nil|].
    destruct (unset (or_str _ _)) eqn:Hs; simpl; [by intros ?%elem_of_nil|].
    destruct (unset (env !! "SHOPIFY_ACCESS_TOKEN"%string)) eqn:Ht; simpl;
      [by intros ?%elem_of_nil|].
    intros ->%list_elem_of_singleton.
    destruct (ResponseFacts.set_variable _ Hb) as (backendUrl & Hu & Hne).
    destruct (ResponseFacts.set_variable _ Ht) as (accessToken & Hta & Htne).
    destruct (ResponseFacts.set_variable _ Hs) as (shopUrl & Hsu & Hsne).
    exists backendUrl, shopUrl, accessToken. rewrite Hu, Hta, Hsu. simpl.
    repeat split; try done.
    unfold or_str in Hsu. destruct (unset (env !! "SHOPIFY_STORE_URL"%string)); eauto.
Qed.

Lemma gateway_calls_carry_the_configuration_witness :
  exists backendUrl,
    Scenario.backend !! "PYTHON_BACKEND_URL"%string = Some backendUrl /\ backendUrl <> []
    /\ {| call_url := js "http://127.0.0.1:8000/upload"; call_method := "POST";
          call_headers := ∅;
          call_body := BodyForm [("file"%string, FFile Scenario.csv)] |}
       = {| call_url := backendUrl ++ js "/upload"; call_method := "POST";
            call_headers := ∅;
            call_body := BodyForm [("file"%string, FFile Scenario.csv)] |}.
Proof.
  apply (proj1 (gateway_calls_carry_the_configuration (H := ExampleHost.host)
                  Scenario.backend (Scenario.failing []) (FFile Scenario.csv) _)).
  vm_compute. apply list_elem_of_here.
Defined.

(** X14.  What a failed upload reports, for a non-2xx answer: the [detail]
    of a body that is a JSON object with a non-empty text under [detail];
    the bare status text for a body that is no JSON (and the bare prefix
    when the status text is empty too); and the prefix followed by the
    status text for a parsed body whose [detail] is missing or falsy. *)
Theorem backend_error_message_policy `{Platform}
        (env : Env) (net : Network) (file : FormValue) (call : FetchCall) (r : Response) :
  fst (Gateway.uploadCSV env net file) = [call] ->
  net call = FetchResolves r ->
  ok r = false ->
  (forall members detail,
      Json.parse (body r) = Some (JObject members) ->
      JsValue.ownProperty (js "detail") members = Some (JString detail) ->
      detail <> [] ->
      snd (Gateway.uploadCSV env net file) = Throw (JsError detail))
  /\ (Json.parse (body r) = None ->
      snd (Gateway.uploadCSV env net file)
      = Throw (JsError (if JsString.eqb (statusText r) []
                        then js "Upload failed: "
                        else statusText r)))
  /\ (forall v detail,
        Json.parse (body r) = Some v ->
        JsValue.getProp (Some v) "detail" = Normal detail ->
        JsValue.truthy detail = false ->
        snd (Gateway.uploadCSV env net file)
        = Throw (JsError (js "Upload failed: " ++ statusText r))).
Proof.
  intros Hcall Hnet Hok.
  assert (Hsnd : snd (Gateway.uploadCSV env net file)
                 = Gateway.throwBackendError "Upload failed: " r).
  { revert Hcall. unfold Gateway.uploadCSV. destruct (unset _); simpl; [done|].
    intros [= <-]. by rewrite Hnet, Hok. }
  rewrite Hsnd. split; [|split].
  - intros members detail. apply GatewayFacts.throwBackendError_detail.
  - intros Hp. rewrite (GatewayFacts.throwBackendError_unparsable _ _ Hp).
    destruct (JsString.eqb (statusText r) []) eqn:He; [|done].
    apply StringFacts.eqb_eq in He. rewrite He. by rewrite app_nil_r.
  - intros v detail. apply GatewayFacts.throwBackendError_no_detail.
Qed.

Lemma backend_error_message_policy_witness :
  snd (Gateway.uploadCSV (H := ExampleHost.host) Scenario.backend
         (Scenario.failing (js "<html>")) (FFile Scenario.csv))
  = Throw (JsError (js "Internal Server Error")).
Proof.
  apply (proj1 (proj2 (backend_error_message_policy (H := ExampleHost.host)
                         Scenario.backend (Scenario.failing (js "<html>"))
                         (FFile Scenario.csv)
                         {| call_url := js "http://127.0.0.1:8000/upload";
                            call_method := "POST"; call_headers := ∅;
                            call_body := BodyForm [("file"%string, FFile Scenario.csv)] |}
                         {| status := 500; statusText := js "Internal Server Error";
                            body := js "<html>" |}
                         ltac:(vm_compute; reflexivity) eq_refl
                         ltac:(vm_compute; reflexivity)))).
  vm_compute. reflexivity.
Defined.

(** X15.  The connection-test loader of the public route never throws: a
    missing backend URL, a rejected fetch, a non-2xx answer and an
    unparsable body all come back as [{ status: "error", message }], a
    parsed 2xx body as [{ status: "success", data }]; the page then shows
    its error paragraph exactly when there is no data.  The embedded loader
    is the same once [authenticate.admin] has returned, and throws what that
    call throws. *)
Theorem loader_reports_failures_as_data `{Platform} (env : Env) (net : UrlNetwork) :
  let backendUrl := env !! "PYTHON_BACKEND_URL"%string in
  let url := default [] backendUrl ++ js "/api/content" in
  let failure message :=
    Normal {| Loaders.l_status := js "error"; Loaders.l_data := None;
              Loaders.l_message := message |} in
  (exists d, snd (Loaders.publicLoader env net) = Normal d
             /\ (Loaders.showsError d = true <-> Loaders.l_data d = None)
             /\ (Loaders.statusLine d = LogPanel.checkMark ++ js " Connected"
                 <-> exists v, Loaders.l_data d = Some v))
  /\ (unset backendUrl = true ->
      Loaders.publicLoader env net
      = ([], failure (Some (JString (js "PYTHON_BACKEND_URL is not set")))))
  /\ (forall e, unset backendUrl = false -> net url = FetchRejects e ->
        Loaders.publicLoader env net = ([url], failure (Conv.exn_message e)))
  /\ (forall r, unset backendUrl = false -> net url = FetchResolves r -> ok r = false ->
        Loaders.publicLoader env net
        = ([url], failure (Some (JString (js "Python backend error: " ++ statusText r)))))
  /\ (forall r, unset backendUrl = false -> net url = FetchResolves r -> ok r = true ->
        Loaders.publicLoader env net
        = ([url],
           match Json.parse (body r) with
           | Some v => Normal {| Loaders.l_status := js "success";
                                 Loaders.l_data := Some v; Loaders.l_message := None |}
           | None => failure (Conv.exn_message (SyntaxError (body r)))
           end))
  /\ (forall auth,
        Loaders.embeddedLoader auth env net
        = match auth with
          | Normal _ => Loaders.publicLoader env net
          | Throw e => ([], Throw e)
          end).
Proof.
  intros backendUrl url failure.
  assert (Hfail : forall message,
             exists d, failure message = Normal d
                       /\ (Loaders.showsError d = true <-> Loaders.l_data d = None)
                       /\ (Loaders.statusLine d = LogPanel.checkMark ++ js " Connected"
                           <-> exists v, Loaders.l_data d = Some v)).
  { intros message. eexists. split; [reflexivity|]. split; [done|].
    split; [done | by intros [v ?]]. }
  unfold Loaders.embeddedLoader, Loaders.publicLoader, Loaders.load,
    PythonService.getGeneratedContent.
  fold backendUrl. split; [|split; [|split; [|split; [|split]]]].
  - destruct (unset backendUrl); simpl; [apply Hfail|].
    destruct (net _) as [e|r]; simpl; [apply Hfail|].
    destruct (negb (ok r)); simpl; [apply Hfail|].
    destruct (Gateway.response_json r) as [v|e]; [|apply Hfail].
    eexists. split; [reflexivity|]. split; [done|]. split; [by eexists | done].
  - by intros ->.
  - intros e -> Hnet. fold url. by rewrite Hnet.
  - intros r -> Hnet Hok. fold url. by rewrite Hnet, Hok.
  - intros r -> Hnet Hok. fold url. rewrite Hnet, Hok. simpl.
    unfold Gateway.response_json, JsValue.JSON_parse.
    by destruct (Json.parse (body r)).
  - by intros [[]|e].
Qed.

Lemma loader_reports_failures_as_data_witness :
  Loaders.publicLoader (H := ExampleHost.host) Scenario.backend Replies.unreachable
  = ([js "http://127.0.0.1:8000/api/content"],
     Normal {| Loaders.l_status := js "error"; Loaders.l_data := None;
               Loaders.l_message := Some (JString (js "fetch failed")) |}).
Proof.
  apply (proj1 (proj2 (proj2 (loader_reports_failures_as_data (H := ExampleHost.host)
                                Scenario.backend Replies.unreachable)))
           (FetchFailed (js "fetch failed"))); reflexivity.
Defined.

Module RelayFacts.
Section WithPlatform.
Context `{Platform}.



Lemma otherFields_idem (fd : FormData) :
  UploadProxy.otherFields (UploadProxy.otherFields fd) = UploadProxy.otherFields fd.
Proof.
  unfold UploadProxy.otherFields. induction fd as [|[k v] fd IH]; [done|].
  simpl. destruct (String.eqb k "file") eqn:Hk; simpl; [done|].
  by rewrite Hk, IH.
Qed.
End WithPlatform.
End RelayFacts.



(** X17.  What the upload proxy forwards is a fresh form without headers of
    its own: the first [file] entry of the request comes first and is the
    only [file] entry, and the other fields follow unchanged and in order;
    a request without a file, or with the empty text as its file, is
    answered 400 and nothing is forwarded. *)
Theorem upload_proxy_normalises_the_form `{Platform}
        (env : Env) (net : Network) (request : N8nProxy.Request) :
  (forall call, call ∈ fst (UploadProxy.POST env net request) ->
     exists fd file forwardedForm,
       N8nProxy.formData request = Normal fd
       /\ formGet fd "file" = Some file
       /\ call_headers call = ∅
       /\ call_body call = BodyForm forwardedForm
       /\ head forwardedForm = Some ("file"%string, file)
       /\ formGet forwardedForm "file" = Some file
       /\ length (List.filter (fun kv => String.eqb (fst kv) "file") forwardedForm) = 1%nat
       /\ UploadProxy.otherFields forwardedForm = UploadProxy.otherFields fd)
  /\ (forall fd,
        N8nProxy.formData request = Normal fd ->
        formGet fd "file" = None \/ formGet fd "file" = Some (FString []) ->
        UploadProxy.POST env net request
        = ([], N8nProxy.errorReply (js "No file received.") 400)).
Proof.
  split.
  - intros call. unfold UploadProxy.POST.
    destruct (N8nProxy.formData request) as [fd|e]; [|by intros ?%elem_of_nil].
    destruct (formGet fd "file") as [file|] eqn:Hf; [|by intros ?%elem_of_nil].
    destruct (UploadProxy.falsyEntry file); [by intros ?%elem_of_nil|].
    destruct (unset _); [by intros ?%elem_of_nil|].
    simpl. intros ->%list_elem_of_singleton.
    exists fd, file, (UploadProxy.n8nFormData file fd). simpl.
    repeat split; try done.
    + f_equal. unfold UploadProxy.otherFields. clear Hf.
      induction fd as [|[k' v'] fd IH]; [done|]. simpl.
      destruct (String.eqb k' "file") eqn:Hk'; simpl; [done|]. by rewrite Hk'.
    + unfold UploadProxy.n8nFormData. cbn [UploadProxy.otherFields List.filter fst].
      change (negb (String.eqb "file" "file")) with false. cbn iota.
      apply RelayFacts.otherFields_idem.
  - intros fd Hfd Hf. unfold UploadProxy.POST. rewrite Hfd.
    destruct Hf as [-> | ->]; reflexivity.
Qed.

Lemma upload_proxy_normalises_the_form_witness :
  UploadProxy.POST (H := ExampleHost.host) Scenario.n8nEnv (Scenario.failing [])
                   (Replies.multipart [("note"%string, FString (js "spring"))])
  = ([], N8nProxy.errorReply (js "No file received.") 400).
Proof.
  apply (proj2 (upload_proxy_normalises_the_form (H := ExampleHost.host) Scenario.n8nEnv
                  (Scenario.failing [])
                  (Replies.multipart [("note"%string, FString (js "spring"))]))
           [("note"%string, FString (js "spring"))] eq_refl).
  left. reflexivity.
Defined.

(** X18.  On a multipart request whose form starts with its only [file]
    entry (as the dashboard's page sends it), the upload proxy and the
    general proxy make the same call and give the same answer. *)
Theorem proxies_agree_on_a_leading_file `{Platform}
        (env : Env) (net : Network) (request : N8nProxy.Request)
        (file : FormValue) (rest : FormData) :
  N8nProxy.isMultipart request = true ->
  N8nProxy.formData request = Normal (("file"%string, file) :: rest) ->
  UploadProxy.falsyEntry file = false ->
  UploadProxy.otherFields rest = rest ->
  UploadProxy.POST env net request = N8nProxy.POST env net request.
Proof.
  intros Hm Hfd Hfile Hrest.
  unfold UploadProxy.POST, N8nProxy.POST, N8nProxy.prepare.
  rewrite Hm, Hfd. simpl. rewrite Hfile.
  destruct (unset _); [done|].
  unfold UploadProxy.n8nFormData. cbn [UploadProxy.otherFields List.filter fst].
  change (negb (String.eqb "file" "file")) with false. cbn iota.
  fold (UploadProxy.otherFields rest). rewrite Hrest. reflexivity.
Qed.

Lemma proxies_agree_on_a_leading_file_witness :
  UploadProxy.POST (H := ExampleHost.host) Scenario.n8nEnv (Replies.answering (js "{}"))
                   (Replies.multipart [("file"%string, FFile Scenario.csv)])
  = N8nProxy.POST (H := ExampleHost.host) Scenario.n8nEnv (Replies.answering (js "{}"))
                  (Replies.multipart [("file"%string, FFile Scenario.csv)]).
Proof.
  apply (proxies_agree_on_a_leading_file (H := ExampleHost.host) Scenario.n8nEnv
           (Replies.answering (js "{}"))
           (Replies.multipart [("file"%string, FFile Scenario.csv)])
           (FFile Scenario.csv) []); reflexivity.
Defined.

(** ** The dashboard's upload page *)

Module UploadFacts.
Section WithPlatform.
Context `{Platform}.

Lemma errorText_nonempty (e : exn) : FileUpload.errorText e <> [].
Proof.
  unfold FileUpload.errorText, JsValue.or_val.
  destruct (Conv.exn_message e) as [[| b | n | m | items | members]|]; simpl;
    try destruct b; try destruct (JsValue.numberIsZero n); try destruct m;
    simpl; done.
Qed.

(** The [try] block of [uploadFile] completes only on a parsed 2xx answer. *)
Lemma attempt_Normal (f : File) (answer : FetchResult) (text : jsstring) (u : Uploaded) :
  FileUpload.attempt f answer = Normal (text, u) ->
  exists r, answer = FetchResolves r /\ ok r = true
            /\ Json.parse (body r) = Some (up_data u)
            /\ up_file u = Some f
            /\ JsString.startsWith text FileUpload.successPrefix = true.
Proof.
  unfold FileUpload.attempt. destruct answer as [e|r]; [done|].
  unfold mbind, completion_bind.
  destruct (ok r) eqn:Hok.
  - unfold Gateway.response_json, JsValue.JSON_parse.
    destruct (Json.parse (body r)) as [data|] eqn:Hp; [|done].
    destruct (JsValue.getProp (Some data) "total_rows") as [total|]; [|done].
    destruct (Conv.ToString total) as [t|]; [|done].
    intros [= <- <-]. exists r. repeat split; try done.
    apply StringFacts.startsWith_spec. by eexists.
  - destruct (JsValue.getProp _ "detail"); [|done].
    destruct (Conv.ToString _); done.
Qed.
End WithPlatform.
End UploadFacts.

(** X19.  [uploadFile] without a file does nothing.  With a file it makes
    exactly one call, ends with [isUploading] off, the file kept, a status
    that is success or error and a message that is not empty; and it hands
    the data to its parent exactly when the status is success, which needs
    a 2xx answer whose body parsed to that data. *)
Theorem upload_notifies_the_parent_exactly_on_success `{Platform}
        (net : Network) (s : FileUpload.state) :
  let '(s', calls, notes) := FileUpload.uploadFile net s in
  match FileUpload.file s with
  | None => s' = s /\ calls = [] /\ notes = []
  | Some f =>
      calls = [FileUpload.uploadCall f]
      /\ FileUpload.isUploading s' = false
      /\ FileUpload.file s' = Some f
      /\ FileUpload.status s' <> FileUpload.StatusIdle
      /\ FileUpload.message s' <> []
      /\ (FileUpload.status s' = FileUpload.StatusSuccess
          <-> exists data, notes = [{| up_data := data; up_file := Some f |}])
      /\ (FileUpload.status s' = FileUpload.StatusError <-> notes = [])
      /\ (forall u, u ∈ notes ->
            exists r, net (FileUpload.uploadCall f) = FetchResolves r
                      /\ ok r = true /\ Json.parse (body r) = Some (up_data u))
  end.
Proof.
  unfold FileUpload.uploadFile.
  destruct (FileUpload.file s) as [f|] eqn:Hf; [|done].
  destruct (FileUpload.attempt f (net (FileUpload.uploadCall f)))
    as [[text u]|e] eqn:Ha.
  - apply UploadFacts.attempt_Normal in Ha as (r & Hnet & Hok & Hp & Hu & Hs).
    simpl. repeat split; try done.
    + intros ->. done.
    + intros _. exists (up_data u). destruct u; simpl in *. by subst.
    + intros u0 ->%list_elem_of_singleton. eauto.
  - simpl. repeat split; try done.
    + apply UploadFacts.errorText_nonempty.
    + by intros [data ?].
    + by intros u0 ?%elem_of_nil.
Qed.

(** X20.  A push from the page never touches the uploaded data, and once
    its timer has fired the button is enabled again.  Without an uploaded
    file it only alerts.  With one it shows the log panel, posts the file to
    [/api/trigger-n8n] (its only call) and sets the 2000 ms timer; the
    button stays disabled in between exactly when the answer was 2xx, and
    the failure alert is shown exactly when it was not. *)
Theorem push_keeps_the_preview (net : Network) (s : UploadPage.state) :
  let s' := fst (UploadPage.handlePushToShopify net s) in
  let effects := snd (UploadPage.handlePushToShopify net s) in
  UploadPage.data s' = UploadPage.data s
  /\ UploadPage.isPushing (UploadPage.timerFires s') = false
  /\ match UploadPage.data s ≫= up_file with
     | None =>
         s' = s /\ effects = [UploadPage.Alert (js "No file data found.")]
     | Some f =>
         UploadPage.showLogs s' = true
         /\ (forall call, UploadPage.Fetch call ∈ effects <-> call = UploadPage.triggerCall f)
         /\ UploadPage.Timer 2000 ∈ effects
         /\ (UploadPage.isPushing s' = true
             <-> exists r, net (UploadPage.triggerCall f) = FetchResolves r /\ ok r = true)
         /\ (UploadPage.Alert (js "Failed to trigger n8n workflow. Check console.")
               ∈ effects
             <-> UploadPage.isPushing s' = false)
     end.
Proof.
  unfold UploadPage.handlePushToShopify.
  destruct (UploadPage.data s ≫= up_file) as [f|]; [|done].
  destruct (net (UploadPage.triggerCall f)) as [e|r] eqn:Hnet; simpl;
    [|destruct (ok r) eqn:Hok; simpl];
    (split; [done|]; split; [done|]; split; [done|];
     split; [set_solver|]; split; [set_solver|]; split; [|set_solver]).
  - split; [done|]. by intros (r & ? & _).
  - split; [|done]. eauto.
  - split; [done|]. intros (r' & [= <-] & ?). congruence.
Qed.

(** X21.  What [FileUpload] hands to the page is enough for the push: once
    the page has taken it in, it shows the table instead of the upload form,
    a push posts the very file that was uploaded (never the alert for a
    missing file), and the log panel is shown from then on. *)
Theorem the_page_pushes_the_uploaded_file `{Platform}
        (net pageNet : Network) (fs : FileUpload.state) (ps : UploadPage.state) :
  Forall (fun u =>
            let ps' := UploadPage.onUploadSuccess u ps in
            exists f,
              FileUpload.file fs = Some f
              /\ UploadPage.render ps'
                 = {| UploadPage.showsUploadForm := false;
                      UploadPage.showsLogPanel := UploadPage.showLogs ps;
                      UploadPage.showsTable := true;
                      UploadPage.pushButton := Some (UploadPage.isPushing ps) |}
              /\ UploadPage.Fetch (UploadPage.triggerCall f)
                   ∈ snd (UploadPage.handlePushToShopify pageNet ps')
              /\ UploadPage.showsLogPanel
                   (UploadPage.render (fst (UploadPage.handlePushToShopify pageNet ps')))
                 = true
              /\ UploadPage.render (UploadPage.handleReset ps')
                 = UploadPage.render UploadPage.initial)
         (snd (FileUpload.uploadFile net fs)).
Proof.
  unfold FileUpload.uploadFile.
  destruct (FileUpload.file fs) as [f|]; [|by constructor].
  destruct (FileUpload.attempt f (net (FileUpload.uploadCall f))) as [[text u]|e] eqn:Ha;
    [|by constructor].
  simpl. constructor; [|by constructor].
  apply UploadFacts.attempt_Normal in Ha as (r & _ & _ & _ & Hu & _).
  exists f. split; [done|]. split; [done|].
  unfold UploadPage.handlePushToShopify. simpl. rewrite Hu.
  destruct (pageNet (UploadPage.triggerCall f)) as [e|r']; simpl;
    [|destruct (ok r'); simpl]; (split; [set_solver|done]).
Qed.

(** ** The routes' forms and derived data *)

(** X22.  What the public route's buttons submit drives its action as
    meant: the upload form of a non-empty file reaches [uploadCSV] with that
    file, and the push form reaches [pushToShopify]; the action answers with
    the gateway's calls and with its value under ["success"] or its error's
    message under ["error"].  An empty file is turned away without a call,
    and without a file nothing is submitted. *)
Theorem submitted_forms_reach_the_gateway `{Platform}
        (env : Env) (net : Network) (file : option File) :
  let outcome (action : string) (t : Traced json) : Traced Routes.ActionData :=
    (fst t,
     Normal match snd t with
            | Normal data => Routes.successData action data None
            | Throw e => Routes.errorData (Conv.exn_message e)
            end) in
  (match RouteForms.handleUpload file with
   | None => file = None
   | Some form =>
       exists f,
         file = Some f
         /\ Routes.publicAction env net (Normal form)
            = if file_size f =? 0 then ([], Normal Routes.noFileData)
              else outcome "upload" (Gateway.uploadCSV env net (FFile f))
   end)
  /\ Routes.publicAction env net (Normal RouteForms.handlePushToShopify)
     = outcome "push" (Gateway.pushToShopify env net).
Proof.
  intros outcome. unfold Routes.publicAction. split.
  - destruct file as [f|]; [|done]. simpl RouteForms.handleUpload. cbv iota.
    exists f. split; [done|].
    destruct (Z.eqb_spec (file_size f) 0) as [Hsize|Hsize].
    + unfold Routes.tryBlock.
      change (Routes.actionTypeIs _ "upload") with true.
      cbn [formGet String.eqb Ascii.eqb Bool.eqb Routes.noFile]. simpl.
      by rewrite Hsize.
    + rewrite (RoutesFacts.tryBlock_upload None env net _ (FFile f)); try done.
      * by destruct (Gateway.uploadCSV env net (FFile f)) as [calls [data|e]].
      * simpl. lia.
  - rewrite RoutesFacts.tryBlock_push; try done.
    by destruct (Gateway.pushToShopify env net) as [calls [data|e]].
Qed.

(** X23.  On [Index] a submitted push switches [isProcessing] on, and an
    action result switches it off only if it is the success of a push (with
    its non-zero timestamp): after a failed push, an upload or an invalid
    action the sync button stays disabled. *)
Theorem processing_ends_only_on_a_successful_push `{Platform}
        (env : Env) (net : Network) (now : N) (requestForm : completion FormData)
        (calls : list FetchCall) (d : Routes.ActionData) :
  Routes.embeddedAction (Normal tt) now env net requestForm = (calls, Normal d) ->
  (RouteForms.indexProcessingOnResult (Some d) true = false
   <-> now <> 0%N
       /\ exists fd data,
            requestForm = Normal fd
            /\ Routes.actionTypeIs fd "upload" = false
            /\ Routes.actionTypeIs fd "push" = true
            /\ snd (Gateway.pushToShopify env net) = Normal data)
  /\ RouteForms.processingOnSubmit true (Some RouteForms.handlePushToShopify) false = true.
Proof.
  intros Hd. split; [|reflexivity].
  unfold Routes.embeddedAction in Hd.
  unfold RouteForms.indexProcessingOnResult, RouteForms.succeeded.
  destruct requestForm as [fd|e]; [|injection Hd as <- <-; simpl; split; [done|]].
  2: { by intros (_ & fd & data & ? & _). }
  destruct (Routes.actionTypeIs fd "upload") eqn:Ha.
  - assert (Hact : Routes.r_action d <> Some (js "push")).
    { revert Hd. unfold Routes.tryBlock. rewrite Ha.
      destruct (formGet fd "file") as [file|]; [|by intros [= <- <-]].
      destruct (Routes.noFile file); [by intros [= <- <-]|].
      destruct (Gateway.uploadCSV env net file) as [cs [data|e]]; by intros [= <- <-]. }
    split; [|by intros (_ & fd' & data & [= <-] & ? & _); congruence].
    destruct (Routes.r_action d) as [a|]; simpl; [|done].
    destruct (JsString.eqb a (js "push")) eqn:He; simpl; [|done].
    apply StringFacts.eqb_eq in He. by subst.
  - destruct (Routes.actionTypeIs fd "push") eqn:Hp.
    + rewrite RoutesFacts.tryBlock_push in Hd by done.
      destruct (Gateway.pushToShopify env net) as [cs [data|e]]; simpl in Hd;
        injection Hd as <- <-; simpl.
      * destruct (N.eqb_spec now 0); simpl; split; try done.
        -- by intros [? _].
        -- intros _. split; [done|]. by exists fd, data.
      * split; [done|]. by intros (_ & fd' & data & _ & _ & _ & ?).
    + rewrite RoutesFacts.tryBlock_invalid in Hd by done.
      injection Hd as <- <-. simpl. split; [done|].
      intros (_ & fd' & data & [= <-] & _ & ? & _). congruence.
Qed.

Lemma processing_ends_only_on_a_successful_push_witness :
  RouteForms.indexProcessingOnResult
    (Some (Routes.successData "push" (JObject []) (Some 7%N))) true
  = false.
Proof.
  apply (proj1 (processing_ends_only_on_a_successful_push (H := ExampleHost.host)
                  Scenario.shopEnv (Replies.answering (js "{}")) 7
                  (Normal RouteForms.handlePushToShopify)
                  (fst (Gateway.pushToShopify (H := ExampleHost.host) Scenario.shopEnv
                          (Replies.answering (js "{}"))))
                  (Routes.successData "push" (JObject []) (Some 7%N))
                  ltac:(vm_compute; reflexivity))).
  split; [discriminate|].
  exists RouteForms.handlePushToShopify, (JObject []).
  repeat split; vm_compute; reflexivity.
Defined.

Module ColumnFacts.
Import RouteData.




End ColumnFacts.




(** ** The dashboard's price log and side bar *)

(** X26.  [fetchLogs] always ends with [loading] off and never changes the
    page or the filter.  It replaces the records and the total exactly on a
    2xx answer whose body parses to something other than [null], by that
    body's [logs] and [total]; after any other answer the list shown before
    stays.  After a change of the filter the request is for the first
    window, with the status appended unless the filter is "ALL". *)
Theorem failed_fetch_keeps_the_records `{Platform}
        (net : UrlNetwork) (s : PriceLogsData.state) :
  let s' := PriceLogsData.fetchLogs net s in
  PriceLogsData.loading s' = false
  /\ PriceLogsData.page s' = PriceLogsData.page s
  /\ PriceLogsData.statusFilter s' = PriceLogsData.statusFilter s
  /\ ((exists r data,
         net (PriceLogsData.url s) = FetchResolves r /\ ok r = true
         /\ Json.parse (body r) = Some data /\ data <> JNull
         /\ JsValue.getProp (Some data) "logs" = Normal (PriceLogsData.logs s')
         /\ JsValue.getProp (Some data) "total" = Normal (PriceLogsData.total s'))
      \/ (PriceLogsData.logs s' = PriceLogsData.logs s
          /\ PriceLogsData.total s' = PriceLogsData.total s
          /\ ~ exists r data,
                 net (PriceLogsData.url s) = FetchResolves r /\ ok r = true
                 /\ Json.parse (body r) = Some data /\ data <> JNull))
  /\ (forall value,
        PriceLogsData.url (PriceLogsData.changeFilter value s)
        = js "http://localhost:8000/price-sync/logs?limit=20&offset=0"
             ++ (if JsString.eqb value (js "ALL") then [] else js "&status=" ++ value)).
Proof.
  intros s'. subst s'. unfold PriceLogsData.fetchLogs, PriceLogsData.attempt.
  destruct (net (PriceLogsData.url s)) as [e|r] eqn:Hnet; simpl.
  { do 3 (split; [done|]). split; [|done]. right. do 2 (split; [done|]).
    by intros (r & data & ? & _). }
  destruct (ok r) eqn:Hok; simpl.
  2: { do 3 (split; [done|]). split; [|done]. right. do 2 (split; [done|]).
       intros (r' & data & [= <-] & ? & _). congruence. }
  unfold Gateway.response_json, JsValue.JSON_parse.
  destruct (Json.parse (body r)) as [data|] eqn:Hp.
  2: { simpl. do 3 (split; [done|]). split; [|done]. right. do 2 (split; [done|]).
       intros (r' & data & [= <-] & _ & ? & _). congruence. }
  destruct data as [| b | n | m | items | members]; simpl.
  { do 3 (split; [done|]). split; [|done]. right. do 2 (split; [done|]).
    intros (r' & data & [= <-] & _ & ? & ?). congruence. }
  all: do 3 (split; [done|]); (split; [|done]); left; eexists r, _; by repeat split.
Qed.

(** X27.  The side bar marks a link as active exactly when the path starts
    with the link's target (the equality test adds nothing, and a path such
    as [/uploads] marks [/upload]); the two targets being no prefix of one
    another, it never marks more than one link. *)
Theorem sidebar_marks_by_prefix (pathname : jsstring) :
  (forall href, Sidebar.isActive pathname href = true <-> exists rest, pathname = href ++ rest)
  /\ (length (Sidebar.activeLinks pathname) <= 1)%nat
  /\ (forall href, href ∈ Sidebar.activeLinks pathname ->
        href ∈ Sidebar.links /\ exists rest, pathname = href ++ rest).
Proof.
  assert (Hact : forall href, Sidebar.isActive pathname href = true
                              <-> exists rest, pathname = href ++ rest).
  { intros href. unfold Sidebar.isActive.
    rewrite orb_true_iff, StringFacts.eqb_eq, StringFacts.startsWith_spec. split.
    - intros [-> | Hp]; [exists []; by rewrite app_nil_r | done].
    - by right. }
  split; [exact Hact|]. split.
  - unfold Sidebar.activeLinks, Sidebar.links. simpl.
    destruct (Sidebar.isActive pathname (js "/upload")) eqn:Hu; [|case_match; simpl; lia].
    apply Hact in Hu as [rest ->]. simpl. lia.
  - intros href. unfold Sidebar.activeLinks.
    rewrite !list_elem_of_In, filter_In. intros [Hin Ha]. split; [done|].
    by apply Hact.
Qed.
